(** * cognito-k3s-webhook: the webhook of [app.py], embedded and verified

    [app.py] receives Cognito post-confirmation events over HTTP and upserts
    one row per Cognito user into a PostgreSQL table through psycopg2.

    The embedding follows the source function by function.  What lies outside
    the source (the database server, the driver, the clock, the random
    generator behind [uuid.uuid4]) is a record [Env] of what the outside did
    during one request; the database as the source can observe it is a record
    [Db] threaded through a state-and-exception monad [M]. *)

From Stdlib Require Import String List ZArith Bool Lia Permutation.
From Stdlib Require Import Floats.SpecFloat.
Import ListNotations.

Open Scope string_scope.
Open Scope Z_scope.

(** ** Python values and exceptions *)

(** What [json.loads] returns.  A dict is the list of its items; [get] reads
    the first item with the key. *)
#[warnings="-register-all"]
Inductive JSON : Type :=
| JNull
| JBool (b : bool)
| JInt (n : Z)
| JFloat (x : spec_float)
| JString (s : string)
| JArray (items : list JSON)
| JObject (items : list (string * JSON)).

(** [type(v).__name__] *)
Definition type_name (v : JSON) : string :=
  match v with
  | JNull => "NoneType"
  | JBool _ => "bool"
  | JInt _ => "int"
  | JFloat _ => "float"
  | JString _ => "str"
  | JArray _ => "list"
  | JObject _ => "dict"
  end.

(** [bool(v)]: what [not v] negates. *)
Definition truthy (v : JSON) : bool :=
  match v with
  | JNull => false
  | JBool b => b
  | JInt n => negb (n =? 0)
  | JFloat (S754_zero _) => false
  | JFloat _ => true
  | JString s => negb (s =? EmptyString)%string
  | JArray items => match items with [] => false | _ => true end
  | JObject items => match items with [] => false | _ => true end
  end.

(** The exceptions the handlers see.  A [detail] built by an f-string keeps
    the exception it formats: [Fmt p e] is [f"{p}{str(e)}"]. *)
Inductive exn : Type :=
| DatabaseError (msg : string)
| UnicodeDecodeError (msg : string)
| JSONDecodeError (msg : string)
| ValueError (msg : string)
| RecursionError (msg : string)
| AttributeError (type_of_object attribute : string)
| UnboundLocalError (variable : string)
| HTTPException (status_code : Z) (detail : text)
with text : Type :=
| Lit (s : string)
| Fmt (prefix : string) (e : exn).

(** [isinstance(e, json.JSONDecodeError)] *)
Definition is_JSONDecodeError (e : exn) : bool :=
  match e with JSONDecodeError _ => true | _ => false end.

(** ** Configuration (module-level constants read from the environment) *)

Record Config : Type := {
  USERS_TABLE : string;
  DEFAULT_PROVIDER : string;
  TRIGGER_SOURCE : string
}.

(** The values [os.getenv] falls back to. *)
Definition default_config : Config :=
  {| USERS_TABLE := "users";
     DEFAULT_PROVIDER := "google";
     TRIGGER_SOURCE := "PostConfirmation_ConfirmSignUp" |}.

(** ** The users table *)

Record Row : Type := {
  id : string;
  cognito_user_id : string;
  email : string;
  name : string;
  picture_url : string;
  provider : string;
  created_at : Z;
  updated_at : Z;
  is_active : bool;
  onboarding_completed : bool;
  preferences : string
}.

(** The two statements the source sends. *)
Inductive Query : Type :=
| Upsert (values : Row)
| Select1.

(** [ON CONFLICT (cognito_user_id)]: the row that is in the way. *)
Definition conflicts (new old : Row) : bool :=
  (cognito_user_id old =? cognito_user_id new)%string.

(** [DO UPDATE SET email = EXCLUDED.email, name = EXCLUDED.name,
    picture_url = EXCLUDED.picture_url, updated_at = EXCLUDED.updated_at] *)
Definition do_update (new old : Row) : Row :=
  {| id := id old;
     cognito_user_id := cognito_user_id old;
     email := email new;
     name := name new;
     picture_url := picture_url new;
     provider := provider old;
     created_at := created_at old;
     updated_at := updated_at new;
     is_active := is_active old;
     onboarding_completed := onboarding_completed old;
     preferences := preferences old |}.

(** [INSERT INTO users (...) VALUES (...) ON CONFLICT (cognito_user_id)
    DO UPDATE SET ...] on a table. *)
Definition upsert (new : Row) (table : list Row) : list Row :=
  if existsb (conflicts new) table
  then map (fun old => if conflicts new old then do_update new old else old) table
  else table ++ [new].

(** Modelled from the spec: the table declaration is not in the source; the
    spec gives it "a uniqueness constraint on external_identity_id", which
    the conflict target of the insert statement needs. *)
Definition unique_cognito_user_id (table : list Row) : Prop :=
  NoDup (map cognito_user_id table).

(** The rows of one Cognito user. *)
Definition rows_of (cid : string) (table : list Row) : list Row :=
  filter (fun r => (cognito_user_id r =? cid)%string) table.

(** ** The database and the driver *)

Definition connection : Type := nat.

Inductive cursor : Type :=
| Cursor (conn : connection).

Inductive DbCall : Type :=
| CallConnect
| CallCursor (conn : connection)
| CallExecute (q : Query)
| CallFetchone
| CallCommit (conn : connection)
| CallRollback (conn : connection)
| CallCursorClose
| CallClose (conn : connection).

Record Db : Type := {
  users : list Row;               (* committed rows *)
  uncommitted : option (list Row);(* the open transaction's rows, if any *)
  open_conns : list connection;   (* connected and not closed *)
  next_conn : connection;
  calls : list DbCall             (* driver calls, most recent first *)
}.

(** What the outside does during one request: which driver calls fail and
    with what message, what [uuid.uuid4()] and [datetime.utcnow()] return,
    and the text the driver binds for a parameter that is not a [str].
    [connect], [cursor], [execute], [commit] and [rollback] can fail;
    [fetchone] after a statement that ran, [cursor.close()] and
    [conn.close()] do not. *)
Record Env : Type := {
  connect_error : option string;
  cursor_error : option string;
  execute_error : option string;
  commit_error : option string;
  rollback_error : option string;
  uuid4 : string;
  utcnow : Z;
  adapt : JSON -> string
}.

(** ** State and exceptions *)

Definition result (A : Type) : Type := (A + exn)%type.

Definition M (A : Type) : Type := Db -> result A * Db.

Definition ret {A} (a : A) : M A := fun st => (inl a, st).

Definition raise {A} (e : exn) : M A := fun st => (inr e, st).

Definition bind {A B} (m : M A) (k : A -> M B) : M B :=
  fun st =>
    match m st with
    | (inl a, st') => k a st'
    | (inr e, st') => (inr e, st')
    end.

(** [try: m except Exception as e: h e] *)
Definition try_except {A} (m : M A) (h : exn -> M A) : M A :=
  fun st =>
    match m st with
    | (inl a, st') => (inl a, st')
    | (inr e, st') => h e st'
    end.

Notation "x <- c1 ;; c2" := (bind c1 (fun x => c2))
  (at level 61, c1 at next level, right associativity).
Notation "c1 ;; c2" := (bind c1 (fun _ => c2))
  (at level 61, right associativity).

Definition record_call (c : DbCall) (st : Db) : Db :=
  {| users := users st;
     uncommitted := uncommitted st;
     open_conns := open_conns st;
     next_conn := next_conn st;
     calls := c :: calls st |}.

Definition set_uncommitted (t : option (list Row)) (st : Db) : Db :=
  {| users := users st;
     uncommitted := t;
     open_conns := open_conns st;
     next_conn := next_conn st;
     calls := calls st |}.

(** A driver call that raises when the outside says so. *)
Definition failing {A} (fault : option string) (ok : M A) : M A :=
  match fault with
  | Some msg => raise (DatabaseError msg)
  | None => ok
  end.

(** [psycopg2.connect] with the keywords of [DB_CONFIG] *)
Definition psycopg2_connect (env : Env) : M connection :=
  fun st =>
    let st := record_call CallConnect st in
    failing (connect_error env)
      (fun st =>
         let c := next_conn st in
         (inl c, {| users := users st;
                    uncommitted := uncommitted st;
                    open_conns := c :: open_conns st;
                    next_conn := S c;
                    calls := calls st |})) st.

(** [conn.cursor()] *)
Definition conn_cursor (env : Env) (conn : connection) : M cursor :=
  fun st =>
    failing (cursor_error env) (ret (Cursor conn))
      (record_call (CallCursor conn) st).

(** [cursor.execute(...)]: the statement runs in the connection's
    transaction, on the committed rows. *)
Definition cursor_execute (env : Env) (cur : cursor) (q : Query) : M unit :=
  fun st =>
    failing (execute_error env)
      (fun st =>
         match q with
         | Upsert values =>
             (inl tt, set_uncommitted (Some (upsert values (users st))) st)
         | Select1 => (inl tt, st)
         end)
      (record_call (CallExecute q) st).

(** [cursor.fetchone()] after [SELECT 1] *)
Definition cursor_fetchone (cur : cursor) : M Z :=
  fun st => (inl 1, record_call CallFetchone st).

(** [conn.commit()] *)
Definition conn_commit (env : Env) (conn : connection) : M unit :=
  fun st =>
    failing (commit_error env)
      (fun st =>
         (inl tt,
          {| users := match uncommitted st with
                      | Some t => t
                      | None => users st
                      end;
             uncommitted := None;
             open_conns := open_conns st;
             next_conn := next_conn st;
             calls := calls st |}))
      (record_call (CallCommit conn) st).

(** [conn.rollback()] *)
Definition conn_rollback (env : Env) (conn : connection) : M unit :=
  fun st =>
    failing (rollback_error env)
      (fun st => (inl tt, set_uncommitted None st))
      (record_call (CallRollback conn) st).

(** [cursor.close()] *)
Definition cursor_close (cur : cursor) : M unit :=
  fun st => (inl tt, record_call CallCursorClose st).

(** [conn.close()]: what was not committed is lost. *)
Definition conn_close (conn : connection) : M unit :=
  fun st =>
    (inl tt,
     {| users := users st;
        uncommitted := None;
        open_conns := remove Nat.eq_dec conn (open_conns st);
        next_conn := next_conn st;
        calls := CallClose conn :: calls st |}).

(** ** The reconciler *)

Section Service.

Variable cfg : Config.

(** [get_db_connection], lines 61-68 *)
Definition get_db_connection (env : Env) : M connection :=
  try_except (psycopg2_connect env)
    (fun _ => raise (HTTPException 500 (Lit "Database connection failed"))).

(** Lines 74-109: the [try] body once [conn] is bound. *)
Definition create_user_try (env : Env) (conn : connection)
    (cognito_user_id email name picture_url : string) : M string :=
  cursor <- conn_cursor env conn ;;
  let user_id := uuid4 env in
  let now := utcnow env in
  cursor_execute env cursor
    (Upsert {| id := user_id;
               cognito_user_id := cognito_user_id;
               email := email;
               name := name;
               picture_url := picture_url;
               provider := DEFAULT_PROVIDER cfg;
               created_at := now;
               updated_at := now;
               is_active := true;
               onboarding_completed := false;
               preferences := "{}" |}) ;;
  conn_commit env conn ;;
  cursor_close cursor ;;
  conn_close conn ;;
  ret user_id.

(** Lines 111-116: the [except] block.  [conn] is [None] here when line 73
    raised before binding it; reading it then raises [UnboundLocalError].
    A connection object is truthy. *)
Definition create_user_except (env : Env) (conn : option connection)
    (e : exn) : M string :=
  match conn with
  | None => raise (UnboundLocalError "conn")
  | Some conn =>
      conn_rollback env conn ;;
      conn_close conn ;;
      raise (HTTPException 500 (Fmt "Error creating user: " e))
  end.

(** [create_user_in_database], lines 70-116 *)
Definition create_user_in_database (env : Env)
    (cognito_user_id email name picture_url : string) : M string :=
  fun st =>
    match get_db_connection env st with
    | (inr e, st1) => create_user_except env None e st1
    | (inl conn, st1) =>
        try_except
          (create_user_try env conn cognito_user_id email name picture_url)
          (create_user_except env (Some conn)) st1
    end.

(** ** The endpoints *)

Record HealthReply : Type := {
  status : string;
  database : string;
  error : option text;
  timestamp : Z
}.

(** [health_check], lines 127-151.  [error] holds [str(e)]. *)
Definition health_check (env : Env) : M HealthReply :=
  try_except
    (conn <- get_db_connection env ;;
     cursor <- conn_cursor env conn ;;
     cursor_execute env cursor Select1 ;;
     result <- cursor_fetchone cursor ;;
     cursor_close cursor ;;
     conn_close conn ;;
     ret {| status := "healthy";
            database := "connected";
            error := None;
            timestamp := utcnow env |})
    (fun e =>
       ret {| status := "unhealthy";
              database := "disconnected";
              error := Some (Fmt EmptyString e);
              timestamp := utcnow env |}).

(** The request body, by what [body.decode('utf-8')] and [json.loads] make
    of it.  [decode] raises [UnicodeDecodeError] on bytes that are not
    UTF-8.  [json.loads] raises [json.JSONDecodeError] on text that is not
    JSON; on text that is JSON, for the value [v], it raises [ValueError]
    when the text writes an integer with more digits than [int] converts
    (4300 unless configured otherwise), [RecursionError] when the text is
    nested deeper than the interpreter recurses, and returns [v]
    otherwise. *)
Inductive Body : Type :=
| NotUtf8 (msg : string)
| NotJson (msg : string)
| IntTooLong (v : JSON) (msg : string)
| TooDeep (v : JSON) (msg : string)
| Json (v : JSON).

(** [json.loads(body.decode('utf-8'))], line 159 *)
Definition json_loads (body : Body) : M JSON :=
  match body with
  | NotUtf8 msg => raise (UnicodeDecodeError msg)
  | NotJson msg => raise (JSONDecodeError msg)
  | IntTooLong _ msg => raise (ValueError msg)
  | TooDeep _ msg => raise (RecursionError msg)
  | Json v => ret v
  end.

Definition dict_get (items : list (string * JSON)) (key : string)
    (default : JSON) : JSON :=
  match find (fun kv => (fst kv =? key)%string) items with
  | Some kv => snd kv
  | None => default
  end.

(** [obj.get(key, default)]: only a dict has [get]. *)
Definition get (obj : JSON) (key : string) (default : JSON) : M JSON :=
  match obj with
  | JObject items => ret (dict_get items key default)
  | _ => raise (AttributeError (type_name obj) "get")
  end.

(** [v != s] for a [str] [s] *)
Definition ne_str (v : JSON) (s : string) : bool :=
  match v with
  | JString t => negb (t =? s)%string
  | _ => true
  end.

(** The text bound for a query parameter: a [str] as it is, anything else
    as the driver adapts it. *)
Definition bound_text (env : Env) (v : JSON) : string :=
  match v with
  | JString s => s
  | _ => adapt env v
  end.

(** The dicts the webhook returns. *)
Inductive ReplyBody : Type :=
| BodyText (s : string)
| BodyUser (message user_id : string) (email : JSON).

Record Reply : Type := {
  statusCode : Z;
  body : ReplyBody
}.

(** Lines 158-191: the [try] body of the webhook. *)
Definition cognito_try (env : Env) (request_body : Body) : M Reply :=
  event_data <- json_loads request_body ;;
  _ <- get event_data "triggerSource" JNull ;;
  trigger <- get event_data "triggerSource" JNull ;;
  if ne_str trigger (TRIGGER_SOURCE cfg)
  then ret {| statusCode := 200; body := BodyText "Event ignored" |}
  else
    cognito_user_id <- get event_data "userName" (JString EmptyString) ;;
    request <- get event_data "request" (JObject []) ;;
    user_attributes <- get request "userAttributes" (JObject []) ;;
    email <- get user_attributes "email" (JString EmptyString) ;;
    name <- get user_attributes "name" (JString EmptyString) ;;
    picture_url <- get user_attributes "picture" (JString EmptyString) ;;
    if negb (truthy email) || negb (truthy cognito_user_id)
    then raise (HTTPException 400 (Lit "Missing required user data"))
    else
      user_id <- create_user_in_database env
                   (bound_text env cognito_user_id) (bound_text env email)
                   (bound_text env name) (bound_text env picture_url) ;;
      ret {| statusCode := 200;
             body := BodyUser "User created successfully" user_id email |}.

(** [cognito_post_confirmation], lines 153-199: the first [except] clause
    that matches handles the exception. *)
Definition cognito_post_confirmation (env : Env) (request_body : Body)
    : M Reply :=
  try_except (cognito_try env request_body)
    (fun e =>
       if is_JSONDecodeError e
       then raise (HTTPException 400 (Lit "Invalid JSON"))
       else raise (HTTPException 500 (Fmt "Internal server error: " e))).

(** Reconciliations of one Cognito user, one after the other; each has its
    own outside and its own email, name and picture. *)
Fixpoint reconcile_all (cognito_user_id : string)
    (inputs : list (Env * (string * string * string))) (st : Db) : Db :=
  match inputs with
  | [] => st
  | (env, (email, name, picture_url)) :: rest =>
      reconcile_all cognito_user_id rest
        (snd (create_user_in_database env cognito_user_id email name
                picture_url st))
  end.

End Service.

(** What [json.dumps] with [allow_nan=False], which renders the reply,
    accepts: a value with no infinity and no NaN in it. *)
Fixpoint json_compliant (v : JSON) : bool :=
  match v with
  | JFloat (S754_infinity _) => false
  | JFloat S754_nan => false
  | JArray items => forallb json_compliant items
  | JObject items =>
      forallb (fun kv => match kv with (_, x) => json_compliant x end) items
  | _ => true
  end.

(** The dicts an endpoint returns, and whether the response can be
    rendered from them. *)
Class Serialisable (A : Type) : Type :=
  serialises : A -> bool.

#[global]
Instance HealthReply_serialisable : Serialisable HealthReply :=
  fun _ => true.

#[global]
Instance Reply_serialisable : Serialisable Reply :=
  fun reply =>
    match body reply with
    | BodyText _ => true
    | BodyUser _ _ email => json_compliant email
    end.

(** What FastAPI answers: 200 with the returned dict, or a plain 500 when
    the dict cannot be rendered; the status of a raised [HTTPException]
    with its detail; 500 for any other exception. *)
Definition http_status {A} `{Serialisable A} (r : result A) : Z :=
  match r with
  | inl reply => if serialises reply then 200 else 500
  | inr (HTTPException status_code _) => status_code
  | inr _ => 500
  end.

Definition http_detail {A} (r : result A) : option text :=
  match r with
  | inr (HTTPException _ detail) => Some detail
  | _ => None
  end.

(** No fault, for the examples. *)
Definition calm (uuid : string) (now : Z) : Env :=
  {| connect_error := None;
     cursor_error := None;
     execute_error := None;
     commit_error := None;
     rollback_error := None;
     uuid4 := uuid;
     utcnow := now;
     adapt := fun _ => EmptyString |}.

Definition empty_db : Db :=
  {| users := [];
     uncommitted := None;
     open_conns := [];
     next_conn := 0%nat;
     calls := [] |}.

(** An accepted event whose attribute bag is [{"name": "A"}]. *)
Definition missing_email_event : Body :=
  Json (JObject
    [("triggerSource", JString "PostConfirmation_ConfirmSignUp");
     ("userName", JString "u1");
     ("request", JObject
        [("userAttributes", JObject [("name", JString "A")])])]).

(** Another trigger, no [userName], and a [request] that is not a dict. *)
Definition malformed_other_event_items : list (string * JSON) :=
  [("triggerSource", JString "PreSignUp_SignUp");
   ("request", JInt 5)].


(** The fields of [signup_event], and the fields of [CognitoEvent] that it
    leaves out. *)
Definition signup_items : list (string * JSON) :=
  [("triggerSource", JString "PostConfirmation_ConfirmSignUp");
   ("userName", JString "u1");
   ("request", JObject
      [("userAttributes", JObject
          [("email", JString "a@b.com");
           ("name", JString "A");
           ("picture", JString "http://x/p.jpg")])])].


(** What the webhook's [try] body does with the three values it reads from
    a JSON object (lines 164-191); see [cognito_try_object]. *)
Definition cognito_try_on (cfg : Config) (env : Env)
    (trigger cognito_user_id request : JSON) : M Reply :=
  if ne_str trigger (TRIGGER_SOURCE cfg)
  then ret {| statusCode := 200; body := BodyText "Event ignored" |}
  else
    user_attributes <- get request "userAttributes" (JObject []) ;;
    email <- get user_attributes "email" (JString EmptyString) ;;
    name <- get user_attributes "name" (JString EmptyString) ;;
    picture_url <- get user_attributes "picture" (JString EmptyString) ;;
    if negb (truthy email) || negb (truthy cognito_user_id)
    then raise (HTTPException 400 (Lit "Missing required user data"))
    else
      user_id <- create_user_in_database cfg env
                   (bound_text env cognito_user_id) (bound_text env email)
                   (bound_text env name) (bound_text env picture_url) ;;
      ret {| statusCode := 200;
             body := BodyUser "User created successfully" user_id email |}.

(** The row the reconciler sends as [VALUES], lines 90-102. *)
Definition values_row (cfg : Config) (env : Env)
    (cid e n p : string) : Row :=
  {| id := uuid4 env;
     cognito_user_id := cid;
     email := e;
     name := n;
     picture_url := p;
     provider := DEFAULT_PROVIDER cfg;
     created_at := utcnow env;
     updated_at := utcnow env;
     is_active := true;
     onboarding_completed := false;
     preferences := "{}" |}.

(** The event of the spec's end-to-end scenario. *)
Definition signup_event : Body := Json (JObject signup_items).

Definition first_uuid : string := "0b0e7a52-6d0c-4f0e-9a57-2f6c1d3e8a41".
Definition second_uuid : string := "c4a1f3d8-92b7-4e15-8d60-7b9e5a2f1c03".

(** A stored user, deactivated, onboarded, with preferences set. *)
Definition stored_user : Row :=
  {| id := first_uuid;
     cognito_user_id := "u1";
     email := "a@b.com";
     name := "A";
     picture_url := "http://x/p.jpg";
     provider := "google";
     created_at := 100;
     updated_at := 100;
     is_active := false;
     onboarding_completed := true;
     preferences := "[1, 2]" |}.

Definition one_user_db : Db :=
  {| users := [stored_user];
     uncommitted := None;
     open_conns := [];
     next_conn := 1%nat;
     calls := [] |}.

(** The server refuses connections. *)
Definition server_down (uuid : string) (now : Z) : Env :=
  {| connect_error := Some "connection refused";
     cursor_error := None;
     execute_error := None;
     commit_error := None;
     rollback_error := None;
     uuid4 := uuid;
     utcnow := now;
     adapt := fun _ => EmptyString |}.

(** The server drops the connection while the statement runs. *)
Definition statement_fails (uuid : string) (now : Z) : Env :=
  {| connect_error := None;
     cursor_error := None;
     execute_error := Some "server closed the connection unexpectedly";
     commit_error := None;
     rollback_error := None;
     uuid4 := uuid;
     utcnow := now;
     adapt := fun _ => EmptyString |}.

(** Connections handed out so far have smaller handles than the next. *)
Definition handles_below_next (st : Db) : Prop :=
  forall c, In c (open_conns st) -> (c < next_conn st)%nat.

(** The commit fails after the statement ran. *)
Definition commit_fails (uuid : string) (now : Z) : Env :=
  {| connect_error := None;
     cursor_error := None;
     execute_error := None;
     commit_error := Some "could not serialize access";
     rollback_error := None;
     uuid4 := uuid;
     utcnow := now;
     adapt := fun _ => EmptyString |}.

(** The statement fails, and then the rollback in the handler too. *)
Definition rollback_fails (uuid : string) (now : Z) : Env :=
  {| connect_error := None;
     cursor_error := None;
     execute_error := Some "server closed the connection unexpectedly";
     commit_error := None;
     rollback_error := Some "connection already closed";
     uuid4 := uuid;
     utcnow := now;
     adapt := fun _ => EmptyString |}.

(** Connecting, opening the cursor, the statement and the commit all
    succeed: the reconciler reaches its [return]. *)
Definition goes_through (env : Env) : Prop :=
  connect_error env = None /\ cursor_error env = None /\
  execute_error env = None /\ commit_error env = None.

(** An accepted event whose email is [null]. *)
Definition null_email_items : list (string * JSON) :=
  [("triggerSource", JString "PostConfirmation_ConfirmSignUp");
   ("userName", JString "u1");
   ("request", JObject
      [("userAttributes", JObject
          [("email", JNull); ("name", JString "A")])])].

(** An accepted event whose [request] is a list. *)
Definition list_request_items : list (string * JSON) :=
  [("triggerSource", JString "PostConfirmation_ConfirmSignUp");
   ("userName", JString "u1");
   ("request", JArray [])].

(** Connecting fails, with the driver's message. *)
Definition connect_fails (msg uuid : string) (now : Z) : Env :=
  {| connect_error := Some msg;
     cursor_error := None;
     execute_error := None;
     commit_error := None;
     rollback_error := None;
     uuid4 := uuid;
     utcnow := now;
     adapt := fun _ => EmptyString |}.




(** An accepted event whose email is the float infinity, as [json.loads]
    reads [Infinity] or [1e999]. *)
Definition infinite_email_items : list (string * JSON) :=
  [("triggerSource", JString "PostConfirmation_ConfirmSignUp");
   ("userName", JString "u1");
   ("request", JObject
      [("userAttributes", JObject
          [("email", JFloat (S754_infinity false))])])].

(** ** The other endpoints *)

Record RootReply : Type := {
  root_message : string;
  root_status : string;
  root_timestamp : Z
}.

#[global]
Instance RootReply_serialisable : Serialisable RootReply :=
  fun _ => true.

(** [root], lines 118-125 *)
Definition root (env : Env) : M RootReply :=
  ret {| root_message := "Cognito K3s Webhook is running";
         root_status := "healthy";
         root_timestamp := utcnow env |}.

(** The test settings, lines 48-49. *)
Record TestConfig : Type := {
  TEST_USER_POOL_ID : string;
  TEST_REGION : string
}.

Definition default_test_config : TestConfig :=
  {| TEST_USER_POOL_ID := "us-east-1_MeClCiUAC";
     TEST_REGION := "us-east-1" |}.

(** The dict literal of lines 204-218. *)
Definition test_event (cfg : Config) (tcfg : TestConfig) : JSON :=
  JObject
    [("version", JString "1");
     ("region", JString (TEST_REGION tcfg));
     ("userPoolId", JString (TEST_USER_POOL_ID tcfg));
     ("userName", JString "test-user-123");
     ("triggerSource", JString (TRIGGER_SOURCE cfg));
     ("request", JObject
        [("userAttributes", JObject
            [("email", JString "test@example.com");
             ("name", JString "Test User");
             ("picture", JString "https://example.com/pic.jpg")])]);
     ("response", JObject [])].

(** [d[key]], for the keys of [test_event], which are all there. *)
Definition getitem (d : JSON) (key : string) : JSON :=
  match d with
  | JObject items => dict_get items key JNull
  | _ => JNull
  end.

(** The dict [test_webhook] returns. *)
Record TestReply : Type := {
  test_message : string;
  test_user_id : string;
  test_data : JSON
}.

#[global]
Instance TestReply_serialisable : Serialisable TestReply :=
  fun reply => json_compliant (test_data reply).

(** [test_webhook], lines 201-235 *)
Definition test_webhook (cfg : Config) (tcfg : TestConfig) (env : Env)
    : M TestReply :=
  let test_event := test_event cfg tcfg in
  try_except
    (let attributes := getitem (getitem test_event "request") "userAttributes" in
     user_id <- create_user_in_database cfg env
                  (bound_text env (getitem test_event "userName"))
                  (bound_text env (getitem attributes "email"))
                  (bound_text env (getitem attributes "name"))
                  (bound_text env (getitem attributes "picture")) ;;
     ret {| test_message := "Test webhook executed successfully";
            test_user_id := user_id;
            test_data := test_event |})
    (fun e => raise (HTTPException 500 (Fmt "Test failed: " e))).

(** The four routes of the application. *)
Inductive Request : Type :=
| GetRoot
| GetHealth
| PostCognitoWebhook (request_body : Body)
| PostTestWebhook.

(** One request: the status FastAPI answers with, and the database after. *)
Definition serve (cfg : Config) (tcfg : TestConfig) (env : Env)
    (req : Request) (st : Db) : Z * Db :=
  match req with
  | GetRoot =>
      let out := root env st in (http_status (fst out), snd out)
  | GetHealth =>
      let out := health_check env st in (http_status (fst out), snd out)
  | PostCognitoWebhook request_body =>
      let out := cognito_post_confirmation cfg env request_body st in
      (http_status (fst out), snd out)
  | PostTestWebhook =>
      let out := test_webhook cfg tcfg env st in
      (http_status (fst out), snd out)
  end.

(** Requests served one after the other, each with its own outside. *)
Fixpoint serve_all (cfg : Config) (tcfg : TestConfig)
    (reqs : list (Env * Request)) (st : Db) : Db :=
  match reqs with
  | [] => st
  | (env, req) :: rest =>
      serve_all cfg tcfg rest (snd (serve cfg tcfg env req st))
  end.

(** The columns the conflict clause does not set. *)
Definition kept_columns (r : Row)
    : string * string * string * Z * bool * bool * string :=
  (id r, cognito_user_id r, provider r, created_at r, is_active r,
   onboarding_completed r, preferences r).

(** The object is an accepted event, and lines 169-174 read these four
    values from it: [userName] at the top, the three attributes in the dict
    under [request] and [userAttributes], each dict empty when its key is
    absent. *)
Definition carries (cfg : Config) (items : list (string * JSON))
    (cid e n p : JSON) : Prop :=
  dict_get items "triggerSource" JNull = JString (TRIGGER_SOURCE cfg) /\
  dict_get items "userName" (JString EmptyString) = cid /\
  exists request_items attributes,
    dict_get items "request" (JObject []) = JObject request_items /\
    dict_get request_items "userAttributes" (JObject []) =
      JObject attributes /\
    dict_get attributes "email" (JString EmptyString) = e /\
    dict_get attributes "name" (JString EmptyString) = n /\
    dict_get attributes "picture" (JString EmptyString) = p.

(** The rows after are the rows before, or the insert statement run once
    on them. *)
Definition rows_step (before after : list Row) : Prop :=
  after = before \/ exists new, after = upsert new before.

(** * Properties *)

(** ** The upsert statement *)

Section UpsertFacts.

Variable new : Row.

Lemma conflicts_iff (old : Row) :
  conflicts new old = true <-> cognito_user_id old = cognito_user_id new.
Proof. unfold conflicts. apply String.eqb_eq. Qed.

Lemma existsb_conflicts_false (table : list Row) :
  existsb (conflicts new) table = false ->
  ~ In (cognito_user_id new) (map cognito_user_id table).
Proof.
  intros Hex Hin. apply in_map_iff in Hin. destruct Hin as [old [Hk Hold]].
  assert (existsb (conflicts new) table = true) as Habs.
  { apply existsb_exists. exists old. split; [exact Hold|].
    now apply conflicts_iff. }
  congruence.
Qed.

Lemma upsert_keys (table : list Row) :
  map cognito_user_id (upsert new table) =
  if existsb (conflicts new) table
  then map cognito_user_id table
  else (map cognito_user_id table ++ [cognito_user_id new])%list.
Proof.
  unfold upsert. destruct (existsb (conflicts new) table).
  - rewrite map_map. apply map_ext. intros old.
    now destruct (conflicts new old).
  - now rewrite map_app.
Qed.

Lemma upsert_unique (table : list Row) :
  unique_cognito_user_id table -> unique_cognito_user_id (upsert new table).
Proof.
  unfold unique_cognito_user_id. intros Hnd. rewrite upsert_keys.
  destruct (existsb (conflicts new) table) eqn:Hex; [exact Hnd|].
  apply existsb_conflicts_false in Hex.
  apply NoDup_rev in Hnd. rewrite <- (rev_involutive (_ ++ _)%list).
  apply NoDup_rev. rewrite rev_app_distr. simpl.
  constructor; [|exact Hnd]. now rewrite <- in_rev.
Qed.

Lemma rows_of_absent (table : list Row) (cid : string) :
  ~ In cid (map cognito_user_id table) -> rows_of cid table = [].
Proof.
  induction table as [|r table IH]; simpl; intros Hno; [reflexivity|].
  destruct (cognito_user_id r =? cid)%string eqn:Heq.
  - apply String.eqb_eq in Heq. exfalso. apply Hno. now left.
  - apply IH. intros Hin. apply Hno. now right.
Qed.

Lemma rows_of_unique (table : list Row) (cid : string) :
  unique_cognito_user_id table ->
  In cid (map cognito_user_id table) ->
  exists r, rows_of cid table = [r] /\ cognito_user_id r = cid.
Proof.
  unfold unique_cognito_user_id.
  induction table as [|r table IH]; simpl; intros Hnd Hin; [contradiction|].
  inversion Hnd as [|k ks Hfresh Hrest]; subst.
  destruct (cognito_user_id r =? cid)%string eqn:Heq.
  - apply String.eqb_eq in Heq. subst cid. exists r.
    now rewrite (rows_of_absent table _ Hfresh).
  - apply String.eqb_neq in Heq.
    destruct Hin as [Hhead|Htail]; [contradiction|]. now apply IH.
Qed.

Lemma rows_of_app (cid : string) (t1 t2 : list Row) :
  rows_of cid (t1 ++ t2) = (rows_of cid t1 ++ rows_of cid t2)%list.
Proof. apply filter_app. Qed.

Lemma rows_of_updated (table : list Row) :
  rows_of (cognito_user_id new)
    (map (fun old => if conflicts new old then do_update new old else old)
       table) =
  map (do_update new) (rows_of (cognito_user_id new) table).
Proof.
  induction table as [|r table IH]; simpl; [reflexivity|].
  unfold conflicts at 1 2.
  destruct (cognito_user_id r =? cognito_user_id new)%string eqn:Heq; simpl;
    rewrite Heq; [now rewrite IH | exact IH].
Qed.

(** After the statement, the user has one row, and it carries the new
    email, name, picture and update time. *)
Lemma upsert_one_row (table : list Row) :
  unique_cognito_user_id table ->
  exists r,
    rows_of (cognito_user_id new) (upsert new table) = [r] /\
    email r = email new /\ name r = name new /\
    picture_url r = picture_url new /\ updated_at r = updated_at new.
Proof.
  intros Hnd. unfold upsert.
  destruct (existsb (conflicts new) table) eqn:Hex.
  - apply existsb_exists in Hex. destruct Hex as [old [Hold Hconf]].
    apply conflicts_iff in Hconf.
    destruct (rows_of_unique table (cognito_user_id new) Hnd) as [r [Hr _]].
    { apply in_map_iff. now exists old. }
    exists (do_update new r). rewrite rows_of_updated, Hr. now simpl.
  - exists new. apply existsb_conflicts_false in Hex.
    rewrite rows_of_app, (rows_of_absent table _ Hex). simpl.
    now rewrite String.eqb_refl.
Qed.

(** The statement keeps the position of every row it finds; at a row of
    the same user it writes four columns, and any other row it leaves. *)
Lemma upsert_nth (table : list Row) (i : nat) (old : Row) :
  nth_error table i = Some old ->
  nth_error (upsert new table) i =
  Some (if conflicts new old then do_update new old else old).
Proof.
  intros Hi. unfold upsert.
  destruct (existsb (conflicts new) table) eqn:Hex.
  - rewrite nth_error_map, Hi. reflexivity.
  - rewrite nth_error_app1 by (apply nth_error_Some; congruence).
    rewrite Hi. destruct (conflicts new old) eqn:Hc; [|reflexivity].
    assert (existsb (conflicts new) table = true) as Habs.
    { apply existsb_exists. exists old. split; [|exact Hc].
      eapply nth_error_In; eassumption. }
    congruence.
Qed.

Lemma upsert_length_conflict (table : list Row) (old : Row) :
  In old table -> cognito_user_id old = cognito_user_id new ->
  length (upsert new table) = length table.
Proof.
  intros Hin Hk. unfold upsert.
  assert (existsb (conflicts new) table = true) as ->.
  { apply existsb_exists. exists old. split; [exact Hin|].
    now apply conflicts_iff. }
  apply length_map.
Qed.

End UpsertFacts.

(** ** The reconciler *)

Ltac by_faults env :=
  destruct env as [c cu ex co rb u now ad];
  destruct c, cu, ex, co, rb; cbn.

(** A call either returns the identifier it generated, with the statement
    committed, or raises, with the committed rows as they were. *)
Lemma create_user_outcome (cfg : Config) (env : Env) (cid e n p : string)
    (st : Db) :
  let out := create_user_in_database cfg env cid e n p st in
  (fst out = inl (uuid4 env) /\
   users (snd out) = upsert (values_row cfg env cid e n p) (users st)) \/
  (exists err, fst out = inr err /\ users (snd out) = users st).
Proof.
  by_faults env; solve [left; split; reflexivity | right; eauto].
Qed.

Lemma create_user_unique (cfg : Config) (env : Env) (cid e n p : string)
    (st : Db) :
  unique_cognito_user_id (users st) ->
  unique_cognito_user_id
    (users (snd (create_user_in_database cfg env cid e n p st))).
Proof.
  intros Hnd.
  destruct (create_user_outcome cfg env cid e n p st)
    as [[_ Hrows]|[err [_ Hrows]]]; rewrite Hrows.
  - now apply upsert_unique.
  - exact Hnd.
Qed.

Lemma reconcile_all_unique (cfg : Config) (cid : string)
    (inputs : list (Env * (string * string * string))) :
  forall st,
    unique_cognito_user_id (users st) ->
    unique_cognito_user_id (users (reconcile_all cfg cid inputs st)).
Proof.
  induction inputs as [|[env [[e n] p]] rest IH]; simpl; intros st Hnd.
  - exact Hnd.
  - apply IH. now apply create_user_unique.
Qed.

Lemma reconcile_all_app (cfg : Config) (cid : string)
    (xs ys : list (Env * (string * string * string))) :
  forall st,
    reconcile_all cfg cid (xs ++ ys) st =
    reconcile_all cfg cid ys (reconcile_all cfg cid xs st).
Proof.
  induction xs as [|[env [[e n] p]] xs IH]; simpl; intros st.
  - reflexivity.
  - apply IH.
Qed.

(** The reconciler raises [HTTPException] 500 with the driver's error in
    the detail when the statement or the commit fails on a connection it
    holds. *)
Lemma create_user_statement_failure (cfg : Config) (env : Env)
    (cid e n p msg : string) (st : Db) :
  connect_error env = None -> cursor_error env = None ->
  rollback_error env = None ->
  execute_error env = Some msg ->
  fst (create_user_in_database cfg env cid e n p st) =
  inr (HTTPException 500 (Fmt "Error creating user: " (DatabaseError msg))).
Proof.
  by_faults env; intros; try discriminate; congruence.
Qed.

Lemma remove_fresh (c : connection) (cs : list connection) :
  (forall c', In c' cs -> (c' < c)%nat) ->
  remove Nat.eq_dec c (c :: cs) = cs.
Proof.
  intros Hlt. simpl. destruct (Nat.eq_dec c c) as [_|Hne]; [|congruence].
  apply notin_remove. intros Hin. apply Hlt in Hin. lia.
Qed.

(** The reconciler closes the connection it opened, on the success path
    and in its [except] block, unless [rollback] itself raises there. *)
Lemma create_user_releases (cfg : Config) (env : Env) (cid e n p : string)
    (st : Db) :
  handles_below_next st ->
  rollback_error env = None ->
  open_conns (snd (create_user_in_database cfg env cid e n p st)) =
  open_conns st.
Proof.
  intros Hfresh.
  assert (remove Nat.eq_dec (next_conn st) (next_conn st :: open_conns st) =
          open_conns st) as Hrm by (apply remove_fresh; exact Hfresh).
  simpl in Hrm.
  by_faults env; intros; try discriminate; try reflexivity; exact Hrm.
Qed.

(** C1 (the code departs from the claim).  The same payload sent twice, with
    no fault: the first call inserts the row and answers its identifier; the
    second call takes the update path and answers the identifier it has just
    generated, while the stored row keeps the first one. *)
Theorem same_payload_twice_answers_new_uuid :
  let first :=
    cognito_post_confirmation default_config (calm first_uuid 100)
      signup_event empty_db in
  let second :=
    cognito_post_confirmation default_config (calm second_uuid 200)
      signup_event (snd first) in
  fst first =
    inl {| statusCode := 200;
           body := BodyUser "User created successfully" first_uuid
                     (JString "a@b.com") |} /\
  fst second =
    inl {| statusCode := 200;
           body := BodyUser "User created successfully" second_uuid
                     (JString "a@b.com") |} /\
  map id (users (snd second)) = [first_uuid] /\
  first_uuid <> second_uuid.
Proof.
  repeat split; try reflexivity. discriminate.
Qed.

(** C2.  Start from a table that meets the uniqueness constraint and
    reconcile one Cognito user any number of times, with any inputs and any
    faults.  The constraint holds after every call, so the user never has
    two rows; and after a call that returns, the user has exactly one row,
    whose email, name, picture and update time are that call's. *)
Theorem reconcile_sequence_one_row (cfg : Config) (cid : string) (st : Db) :
  unique_cognito_user_id (users st) ->
  (forall inputs,
     unique_cognito_user_id (users (reconcile_all cfg cid inputs st))) /\
  (forall earlier env e n p user_id,
     let before := reconcile_all cfg cid earlier st in
     fst (create_user_in_database cfg env cid e n p before) = inl user_id ->
     exists r,
       rows_of cid
         (users (reconcile_all cfg cid (earlier ++ [(env, (e, n, p))]) st))
       = [r] /\
       email r = e /\ name r = n /\ picture_url r = p /\
       updated_at r = utcnow env).
Proof.
  intros Hnd. split.
  - intros inputs. now apply reconcile_all_unique.
  - intros earlier env e n p user_id before Hok.
    rewrite reconcile_all_app. fold before. simpl.
    assert (unique_cognito_user_id (users before)) as Hb
      by now apply reconcile_all_unique.
    destruct (create_user_outcome cfg env cid e n p before)
      as [[_ Hrows]|[err [Herr _]]]; [|congruence].
    rewrite Hrows.
    exact (upsert_one_row (values_row cfg env cid e n p) (users before) Hb).
Qed.

Lemma reconcile_sequence_one_row_witness :
  unique_cognito_user_id (users empty_db) /\
  exists r,
    rows_of "u1"
      (users (reconcile_all default_config "u1"
                ([(calm first_uuid 100, ("a@b.com", "A", "http://x/p.jpg"))]
                 ++ [(calm second_uuid 200, ("a@c.org", "B", "http://x/q.png"))])
                empty_db)) = [r] /\
    email r = "a@c.org" /\ name r = "B" /\ picture_url r = "http://x/q.png" /\
    updated_at r = 200.
Proof.
  assert (unique_cognito_user_id (users empty_db)) as Hnd by constructor.
  split; [exact Hnd|].
  exact (proj2 (reconcile_sequence_one_row default_config "u1" empty_db Hnd)
           [(calm first_uuid 100, ("a@b.com", "A", "http://x/p.jpg"))]
           (calm second_uuid 200) "a@c.org" "B" "http://x/q.png" second_uuid eq_refl).
Defined.

(** C4.  A call for a user who has a row adds no row; at that row's place
    there is afterwards a row with the same [id], [cognito_user_id],
    [provider], [created_at], [is_active], [onboarding_completed] and
    [preferences]; the rows of other users are as they were. *)
Theorem update_path_frame (cfg : Config) (env : Env) (cid e n p : string)
    (st : Db) (i : nat) (old : Row) :
  nth_error (users st) i = Some old ->
  cognito_user_id old = cid ->
  let st' := snd (create_user_in_database cfg env cid e n p st) in
  length (users st') = length (users st) /\
  (exists r,
     nth_error (users st') i = Some r /\
     id r = id old /\
     cognito_user_id r = cognito_user_id old /\
     provider r = provider old /\
     created_at r = created_at old /\
     is_active r = is_active old /\
     onboarding_completed r = onboarding_completed old /\
     preferences r = preferences old) /\
  (forall j other,
     nth_error (users st) j = Some other ->
     cognito_user_id other <> cid ->
     nth_error (users st') j = Some other).
Proof.
  intros Hi Hk st'. subst st'.
  destruct (create_user_outcome cfg env cid e n p st)
    as [[_ Hrows]|[err [_ Hrows]]]; rewrite Hrows.
  - set (new := values_row cfg env cid e n p).
    split; [|split].
    + apply (upsert_length_conflict new (users st) old).
      * eapply nth_error_In; eassumption.
      * exact Hk.
    + rewrite (upsert_nth new (users st) i old Hi).
      destruct (conflicts new old); eexists; repeat split; reflexivity.
    + intros j other Hj Hne.
      rewrite (upsert_nth new (users st) j other Hj).
      destruct (conflicts new other) eqn:Hc; [|reflexivity].
      apply conflicts_iff in Hc. contradiction.
  - split; [reflexivity|]. split.
    + exists old. repeat split; try reflexivity. exact Hi.
    + intros j other Hj _. exact Hj.
Qed.

Lemma update_path_frame_witness :
  nth_error (users one_user_db) 0 = Some stored_user /\
  cognito_user_id stored_user = "u1" /\
  exists r,
    nth_error
      (users (snd (create_user_in_database default_config
                     (calm second_uuid 200) "u1" "a@c.org" "B"
                     "http://x/q.png" one_user_db))) 0 = Some r /\
    id r = id stored_user /\
    cognito_user_id r = cognito_user_id stored_user /\
    provider r = provider stored_user /\
    created_at r = created_at stored_user /\
    is_active r = is_active stored_user /\
    onboarding_completed r = onboarding_completed stored_user /\
    preferences r = preferences stored_user.
Proof.
  split; [reflexivity|]. split; [reflexivity|].
  exact (proj1 (proj2
    (update_path_frame default_config (calm second_uuid 200)
       "u1" "a@c.org" "B" "http://x/q.png" one_user_db 0%nat stored_user
       eq_refl eq_refl))).
Defined.

(** C6 (the code departs from the claim).  When the connection cannot be
    acquired, [get_db_connection] raises before [conn] is bound, the
    [except] block of the reconciler reads [conn], and the reconciler raises
    [UnboundLocalError] instead of an [HTTPException] 500 with the cause;
    the only driver call made is the failed [connect]. *)
Theorem connect_failure_raises_unbound_local (cfg : Config) (env : Env)
    (cid e n p msg : string) (st : Db) :
  connect_error env = Some msg ->
  create_user_in_database cfg env cid e n p st =
  (inr (UnboundLocalError "conn"), record_call CallConnect st).
Proof.
  destruct env as [c cu ex co rb u now ad]; simpl. intros ->. reflexivity.
Qed.

Lemma connect_failure_raises_unbound_local_witness :
  connect_error (server_down first_uuid 100) = Some "connection refused" /\
  create_user_in_database default_config (server_down first_uuid 100)
    "u1" "a@b.com" "A" "http://x/p.jpg" empty_db =
  (inr (UnboundLocalError "conn"), record_call CallConnect empty_db).
Proof.
  split; [reflexivity|].
  exact (connect_failure_raises_unbound_local default_config
           (server_down first_uuid 100) "u1" "a@b.com" "A" "http://x/p.jpg"
           "connection refused" empty_db eq_refl).
Defined.

(** At the webhook the same failure is answered 500, and the detail
    formats the [UnboundLocalError], not the connection error. *)
Example webhook_connect_failure :
  fst (cognito_post_confirmation default_config (server_down first_uuid 100)
         signup_event empty_db) =
  inr (HTTPException 500
         (Fmt "Internal server error: " (UnboundLocalError "conn"))).
Proof. reflexivity. Qed.

(** C7 (the code departs from the claim).  In the health check, when the
    connection is acquired and the probe statement then fails, the handler
    reports the failure and returns; [conn.close()] is not called and the
    connection stays open. *)
Theorem health_check_failure_keeps_connection (env : Env) (msg : string)
    (st : Db) :
  connect_error env = None ->
  cursor_error env = None ->
  execute_error env = Some msg ->
  let out := health_check env st in
  fst out =
    inl {| status := "unhealthy";
           database := "disconnected";
           error := Some (Fmt EmptyString (DatabaseError msg));
           timestamp := utcnow env |} /\
  open_conns (snd out) = next_conn st :: open_conns st /\
  calls (snd out) =
    CallExecute Select1 :: CallCursor (next_conn st) :: CallConnect
      :: calls st.
Proof.
  destruct env as [c cu ex co rb u now ad]; simpl.
  intros -> -> ->. repeat split.
Qed.

Lemma health_check_failure_keeps_connection_witness :
  connect_error (statement_fails first_uuid 100) = None /\
  cursor_error (statement_fails first_uuid 100) = None /\
  execute_error (statement_fails first_uuid 100) =
    Some "server closed the connection unexpectedly" /\
  open_conns (snd (health_check (statement_fails first_uuid 100) empty_db)) =
    [0%nat].
Proof.
  repeat (split; [reflexivity|]).
  exact (proj1 (proj2
    (health_check_failure_keeps_connection (statement_fails first_uuid 100)
       "server closed the connection unexpectedly" empty_db
       eq_refl eq_refl eq_refl))).
Defined.

(** The reconciler, on the same fault, closes its connection. *)
Example reconciler_closes_on_statement_failure :
  open_conns
    (snd (create_user_in_database default_config
            (statement_fails first_uuid 100) "u1" "a@b.com" "A"
            "http://x/p.jpg" empty_db)) = [].
Proof. reflexivity. Qed.

(** C9, as the code has it.  The health check returns a reply for every
    outside and every database state, so FastAPI answers 200, and the
    timestamp is the clock's.  The reply is "healthy" and "connected" with
    no error when connecting, opening the cursor and the probe statement
    all succeed.  Otherwise it is "unhealthy" and "disconnected" and
    [error] is [str(e)] of the exception caught: the driver's error when
    the cursor or the statement failed, and, when connecting failed, the
    [HTTPException] 500 "Database connection failed" that
    [get_db_connection] raised in place of the driver's error. *)
Theorem health_check_always_replies (env : Env) (st : Db) :
  exists reply,
    fst (health_check env st) = inl reply /\
    http_status (fst (health_check env st)) = 200 /\
    timestamp reply = utcnow env /\
    (connect_error env = None -> cursor_error env = None ->
     execute_error env = None ->
     reply = {| status := "healthy";
                database := "connected";
                error := None;
                timestamp := utcnow env |}) /\
    (forall msg,
       connect_error env = Some msg ->
       reply = {| status := "unhealthy";
                  database := "disconnected";
                  error := Some (Fmt EmptyString
                                   (HTTPException 500
                                      (Lit "Database connection failed")));
                  timestamp := utcnow env |}) /\
    (forall msg,
       connect_error env = None -> cursor_error env = Some msg ->
       reply = {| status := "unhealthy";
                  database := "disconnected";
                  error := Some (Fmt EmptyString (DatabaseError msg));
                  timestamp := utcnow env |}) /\
    (forall msg,
       connect_error env = None -> cursor_error env = None ->
       execute_error env = Some msg ->
       reply = {| status := "unhealthy";
                  database := "disconnected";
                  error := Some (Fmt EmptyString (DatabaseError msg));
                  timestamp := utcnow env |}).
Proof.
  by_faults env; eexists;
    (split; [reflexivity|]); (split; [reflexivity|]);
    (split; [reflexivity|]);
    repeat split; intros; try discriminate; congruence.
Qed.

Lemma health_check_always_replies_witness :
  execute_error (statement_fails first_uuid 100) =
    Some "server closed the connection unexpectedly" /\
  fst (health_check (statement_fails first_uuid 100) empty_db) =
  inl {| status := "unhealthy";
         database := "disconnected";
         error := Some (Fmt EmptyString
                          (DatabaseError
                             "server closed the connection unexpectedly"));
         timestamp := 100 |}.
Proof.
  split; [reflexivity|].
  destruct (health_check_always_replies (statement_fails first_uuid 100)
              empty_db) as [reply [Hreply [_ [_ [_ [_ [_ Hstatement]]]]]]].
  rewrite Hreply. f_equal.
  exact (Hstatement _ eq_refl eq_refl eq_refl).
Defined.

(** C9, as stated, fails: when connecting fails, the reply does not carry
    the cause.  Whatever the driver said, [error] is the fixed text of
    [get_db_connection]; two different causes give the same reply. *)
Lemma health_check_hides_connect_cause :
  fst (health_check (connect_fails "connection refused" first_uuid 100)
         empty_db) =
  inl {| status := "unhealthy";
         database := "disconnected";
         error := Some (Fmt EmptyString
                          (HTTPException 500
                             (Lit "Database connection failed")));
         timestamp := 100 |} /\
  fst (health_check (connect_fails "connection refused" first_uuid 100)
         empty_db) =
  fst (health_check
         (connect_fails "password authentication failed" first_uuid 100)
         empty_db).
Proof. split; reflexivity. Qed.

(** In [error], a failed connection shows as the exception that
    [get_db_connection] raised in its place. *)
Example health_check_server_down :
  fst (health_check (server_down first_uuid 100) empty_db) =
  inl {| status := "unhealthy";
         database := "disconnected";
         error := Some (Fmt EmptyString
                          (HTTPException 500
                             (Lit "Database connection failed")));
         timestamp := 100 |}.
Proof. reflexivity. Qed.

(** ** The webhook *)

Lemma ne_str_true (v : JSON) (s : string) :
  v <> JString s -> ne_str v s = true.
Proof.
  destruct v as [| | | |t| |]; simpl; intros Hne; try reflexivity.
  destruct (t =? s)%string eqn:Heq; [|reflexivity].
  apply String.eqb_eq in Heq. subst t. congruence.
Qed.


Lemma cognito_try_object (cfg : Config) (env : Env)
    (items : list (string * JSON)) (st : Db) :
  cognito_try cfg env (Json (JObject items)) st =
  cognito_try_on cfg env
    (dict_get items "triggerSource" JNull)
    (dict_get items "userName" (JString EmptyString))
    (dict_get items "request" (JObject [])) st.
Proof.
  unfold cognito_try, cognito_try_on. simpl. unfold bind at 1 2 3. simpl.
  destruct (ne_str _ _); reflexivity.
Qed.

Lemma ignored_event (cfg : Config) (env : Env)
    (items : list (string * JSON)) (st : Db) :
  dict_get items "triggerSource" JNull <> JString (TRIGGER_SOURCE cfg) ->
  cognito_post_confirmation cfg env (Json (JObject items)) st =
  (inl {| statusCode := 200; body := BodyText "Event ignored" |}, st).
Proof.
  intros Hne. unfold cognito_post_confirmation, try_except, cognito_try.
  simpl. unfold bind. simpl. now rewrite (ne_str_true _ _ Hne).
Qed.

Lemma ne_str_same (s : string) : ne_str (JString s) s = false.
Proof. simpl. now rewrite String.eqb_refl. Qed.

Lemma create_user_not_json_error (cfg : Config) (env : Env)
    (cid e n p : string) (st : Db) (err : exn) :
  fst (create_user_in_database cfg env cid e n p st) = inr err ->
  is_JSONDecodeError err = false.
Proof.
  by_faults env; intros H; try discriminate H; inversion H; reflexivity.
Qed.

(** What follows the reconciler's call in the webhook. *)
Lemma webhook_after_reconciler (cfg : Config) (env : Env)
    (cid e n p : string) (echo : JSON) (st : Db) :
  let rc := create_user_in_database cfg env cid e n p st in
  let out :=
    try_except
      (user_id <- create_user_in_database cfg env cid e n p ;;
       ret {| statusCode := 200;
              body := BodyUser "User created successfully" user_id echo |})
      (fun e =>
         if is_JSONDecodeError e
         then raise (HTTPException 400 (Lit "Invalid JSON"))
         else raise (HTTPException 500 (Fmt "Internal server error: " e)))
      st in
  snd out = snd rc /\
  fst out =
    match fst rc with
    | inl user_id =>
        inl {| statusCode := 200;
               body := BodyUser "User created successfully" user_id echo |}
    | inr err => inr (HTTPException 500 (Fmt "Internal server error: " err))
    end.
Proof.
  intros rc out. subst rc out. unfold try_except, bind.
  pose proof (create_user_not_json_error cfg env cid e n p st) as Hkind.
  destruct (create_user_in_database cfg env cid e n p st) as [[uid|err] st'];
    simpl in *.
  - split; reflexivity.
  - rewrite (Hkind err eq_refl). split; reflexivity.
Qed.

Lemma cognito_try_carries (cfg : Config) (env : Env)
    (items : list (string * JSON)) (cid e n p : JSON) (st : Db) :
  carries cfg items cid e n p ->
  cognito_try cfg env (Json (JObject items)) st =
  (if negb (truthy e) || negb (truthy cid)
   then raise (HTTPException 400 (Lit "Missing required user data"))
   else
     user_id <- create_user_in_database cfg env
                  (bound_text env cid) (bound_text env e)
                  (bound_text env n) (bound_text env p) ;;
     ret {| statusCode := 200;
            body := BodyUser "User created successfully" user_id e |}) st.
Proof.
  intros [Ht [Hu [ritems [attrs [Hr [Ha [He [Hn Hp]]]]]]]].
  rewrite cognito_try_object. unfold cognito_try_on.
  rewrite Ht, Hu, Hr, ne_str_same. simpl. unfold bind at 1. simpl.
  rewrite Ha. simpl. unfold bind at 1 2 3. simpl.
  rewrite He, Hn, Hp. reflexivity.
Qed.


(** C3 (the code departs from the claim).  An accepted event whose
    attribute bag has no email: the webhook raises the 400 "Missing
    required user data" inside its own [try], the catch-all clause takes it,
    and the answer is 500 with the 400 formatted in the detail.  The
    database is not touched. *)
Theorem missing_email_answers_500 :
  let out :=
    cognito_post_confirmation default_config (calm first_uuid 100)
      missing_email_event empty_db in
  fst out =
    inr (HTTPException 500
           (Fmt "Internal server error: "
              (HTTPException 400 (Lit "Missing required user data")))) /\
  http_status (fst out) = 500 /\
  snd out = empty_db.
Proof. repeat split. Qed.

(** C5.  A JSON object whose [triggerSource] is not the configured string
    (absent, another string, or not a string) is answered 200 with
    [{statusCode: 200, body: "Event ignored"}], whatever else it holds, and
    the database, its log of driver calls included, is as before. *)
Theorem other_trigger_is_ignored (cfg : Config) (env : Env)
    (items : list (string * JSON)) (st : Db) :
  dict_get items "triggerSource" JNull <> JString (TRIGGER_SOURCE cfg) ->
  let out := cognito_post_confirmation cfg env (Json (JObject items)) st in
  fst out = inl {| statusCode := 200; body := BodyText "Event ignored" |} /\
  http_status (fst out) = 200 /\
  snd out = st.
Proof.
  intros Hne out. subst out. rewrite (ignored_event cfg env items st Hne).
  repeat split.
Qed.

Lemma other_trigger_is_ignored_witness :
  dict_get malformed_other_event_items "triggerSource" JNull <>
    JString (TRIGGER_SOURCE default_config) /\
  cognito_post_confirmation default_config (calm first_uuid 100)
    (Json (JObject malformed_other_event_items)) empty_db =
  (inl {| statusCode := 200; body := BodyText "Event ignored" |}, empty_db).
Proof.
  assert (dict_get malformed_other_event_items "triggerSource" JNull <>
          JString (TRIGGER_SOURCE default_config)) as Hne by discriminate.
  split; [exact Hne|].
  pose proof (other_trigger_is_ignored default_config (calm first_uuid 100)
                malformed_other_event_items empty_db Hne) as [H1 [_ H2]].
  apply injective_projections; assumption.
Defined.

(** How the webhook answers a body that does not load: 400 "Invalid JSON"
    for [JSONDecodeError] and 500 from the catch-all clause for the three
    other exceptions; the database is not touched. *)
Lemma undecodable_body_rejected (cfg : Config) (env : Env) (st : Db) :
  (forall msg,
     cognito_post_confirmation cfg env (NotJson msg) st =
     (inr (HTTPException 400 (Lit "Invalid JSON")), st)) /\
  (forall msg,
     cognito_post_confirmation cfg env (NotUtf8 msg) st =
     (inr (HTTPException 500
             (Fmt "Internal server error: " (UnicodeDecodeError msg))),
      st)) /\
  (forall v msg,
     cognito_post_confirmation cfg env (IntTooLong v msg) st =
     (inr (HTTPException 500
             (Fmt "Internal server error: " (ValueError msg))), st)) /\
  (forall v msg,
     cognito_post_confirmation cfg env (TooDeep v msg) st =
     (inr (HTTPException 500
             (Fmt "Internal server error: " (RecursionError msg))), st)).
Proof. repeat split. Qed.

(** C8 (the code departs from the claim).  A body that is not UTF-8 does
    not decode as JSON.  [body.decode] raises [UnicodeDecodeError], which
    is not a [json.JSONDecodeError]: the clause that answers 400 "Invalid
    JSON" passes it by and the catch-all clause answers 500.  The database
    is not touched. *)
Theorem non_utf8_body_answers_500 (cfg : Config) (env : Env) (msg : string)
    (st : Db) :
  let out := cognito_post_confirmation cfg env (NotUtf8 msg) st in
  fst out =
    inr (HTTPException 500
           (Fmt "Internal server error: " (UnicodeDecodeError msg))) /\
  http_status (fst out) = 500 /\
  http_status (fst out) <> 400 /\
  snd out = st.
Proof. repeat split. discriminate. Qed.




(** * Further properties of the code *)

(** ** [get_db_connection] and the reconciler *)

(** X1.  When [get_db_connection] raises, what it raises is
    [HTTPException] 500 with the fixed detail "Database connection failed",
    whatever the driver's message was; no connection is open that was not
    before and no row has changed. *)
Theorem get_db_connection_failure (env : Env) (st st' : Db) (e : exn) :
  get_db_connection env st = (inr e, st') ->
  e = HTTPException 500 (Lit "Database connection failed") /\
  connect_error env <> None /\
  open_conns st' = open_conns st /\
  users st' = users st.
Proof.
  destruct env as [c cu ex co rb u now ad]. destruct c; cbn; intros H.
  - inversion H; subst. repeat split. discriminate.
  - discriminate.
Qed.

Lemma get_db_connection_failure_witness :
  get_db_connection (server_down first_uuid 100) empty_db =
    (inr (HTTPException 500 (Lit "Database connection failed")),
     record_call CallConnect empty_db) /\
  open_conns (record_call CallConnect empty_db) = open_conns empty_db.
Proof.
  split; [reflexivity|].
  exact (proj1 (proj2 (proj2
    (get_db_connection_failure (server_down first_uuid 100) empty_db
       (record_call CallConnect empty_db)
       (HTTPException 500 (Lit "Database connection failed"))
       eq_refl)))).
Defined.

(** X2.  First creation.  When no step fails and the user has no row yet,
    the call appends one row and returns that row's [id]; the row has the
    configured provider, the clock's time as [created_at] and [updated_at],
    is active, not onboarded, with preferences "{}". *)
Theorem first_creation_inserts (cfg : Config) (env : Env)
    (cid e n p : string) (st : Db) :
  connect_error env = None -> cursor_error env = None ->
  execute_error env = None -> commit_error env = None ->
  rows_of cid (users st) = [] ->
  let out := create_user_in_database cfg env cid e n p st in
  exists r,
    fst out = inl (id r) /\
    users (snd out) = (users st ++ [r])%list /\
    r = {| id := uuid4 env;
           cognito_user_id := cid;
           email := e;
           name := n;
           picture_url := p;
           provider := DEFAULT_PROVIDER cfg;
           created_at := utcnow env;
           updated_at := utcnow env;
           is_active := true;
           onboarding_completed := false;
           preferences := "{}" |}.
Proof.
  intros Hc Hcu Hex Hco Hnone out. subst out.
  exists (values_row cfg env cid e n p).
  assert (existsb (conflicts (values_row cfg env cid e n p)) (users st)
          = false) as Hfree.
  { destruct (existsb _ (users st)) eqn:Hx; [|reflexivity].
    apply existsb_exists in Hx. destruct Hx as [old [Hin Hconf]].
    assert (In old (rows_of cid (users st))) as Habs.
    { apply filter_In. split; [exact Hin|exact Hconf]. }
    rewrite Hnone in Habs. contradiction. }
  destruct env as [c cu ex co rb u now ad]; simpl in *. subst c cu ex co.
  cbn. split; [reflexivity|]. split; [|reflexivity].
  unfold upsert. unfold values_row in Hfree. simpl in Hfree.
  now rewrite Hfree.
Qed.

Lemma first_creation_inserts_witness :
  rows_of "u1" (users empty_db) = [] /\
  exists r,
    fst (create_user_in_database default_config (calm first_uuid 100)
           "u1" "a@b.com" "A" "http://x/p.jpg" empty_db) = inl (id r) /\
    users (snd (create_user_in_database default_config (calm first_uuid 100)
                  "u1" "a@b.com" "A" "http://x/p.jpg" empty_db)) =
      (users empty_db ++ [r])%list /\
    r = {| id := first_uuid;
           cognito_user_id := "u1";
           email := "a@b.com";
           name := "A";
           picture_url := "http://x/p.jpg";
           provider := "google";
           created_at := 100;
           updated_at := 100;
           is_active := true;
           onboarding_completed := false;
           preferences := "{}" |}.
Proof.
  split; [reflexivity|].
  exact (first_creation_inserts default_config (calm first_uuid 100)
           "u1" "a@b.com" "A" "http://x/p.jpg" empty_db
           eq_refl eq_refl eq_refl eq_refl eq_refl).
Defined.

Lemma rows_of_upsert_other (new : Row) (cid : string) (table : list Row) :
  cid <> cognito_user_id new ->
  rows_of cid (upsert new table) = rows_of cid table.
Proof.
  intros Hne. unfold upsert.
  destruct (existsb (conflicts new) table).
  - induction table as [|r table IH]; simpl; [reflexivity|].
    destruct (conflicts new r) eqn:Hc; simpl.
    + apply conflicts_iff in Hc.
      assert ((cognito_user_id r =? cid)%string = false) as ->
        by (apply String.eqb_neq; congruence).
      exact IH.
    + destruct (cognito_user_id r =? cid)%string; [now rewrite IH|exact IH].
  - rewrite rows_of_app. simpl.
    assert ((cognito_user_id new =? cid)%string = false) as ->
      by (apply String.eqb_neq; congruence).
    apply app_nil_r.
Qed.

(** X3.  Isolation.  A call for one user, whatever its outcome and whether
    it inserts or updates, leaves the rows of every other user as they
    were. *)
Theorem other_users_untouched (cfg : Config) (env : Env)
    (cid e n p other : string) (st : Db) :
  other <> cid ->
  rows_of other
    (users (snd (create_user_in_database cfg env cid e n p st))) =
  rows_of other (users st).
Proof.
  intros Hne.
  destruct (create_user_outcome cfg env cid e n p st)
    as [[_ Hrows]|[err [_ Hrows]]]; rewrite Hrows; [|reflexivity].
  now apply rows_of_upsert_other.
Qed.

Lemma other_users_untouched_witness :
  "u1" <> "u2" /\
  rows_of "u1"
    (users (snd (create_user_in_database default_config
                   (calm second_uuid 200) "u2" "c@d.org" "C" "http://x/c.png"
                   one_user_db))) = [stored_user].
Proof.
  assert ("u1" <> "u2") as Hne by discriminate.
  split; [exact Hne|].
  exact (other_users_untouched default_config (calm second_uuid 200)
           "u2" "c@d.org" "C" "http://x/c.png" "u1" one_user_db Hne).
Defined.

(** X4.  All or nothing.  A call that raises, at whatever step, leaves the
    committed rows exactly as they were. *)
Theorem failed_call_changes_no_row (cfg : Config) (env : Env)
    (cid e n p : string) (st : Db) (err : exn) :
  fst (create_user_in_database cfg env cid e n p st) = inr err ->
  users (snd (create_user_in_database cfg env cid e n p st)) = users st.
Proof.
  intros Herr.
  destruct (create_user_outcome cfg env cid e n p st)
    as [[Hok _]|[err' [_ Hrows]]]; [congruence|exact Hrows].
Qed.

Lemma failed_call_changes_no_row_witness :
  fst (create_user_in_database default_config (commit_fails second_uuid 200)
         "u1" "a@c.org" "B" "http://x/q.png" one_user_db) =
    inr (HTTPException 500
           (Fmt "Error creating user: "
              (DatabaseError "could not serialize access"))) /\
  users (snd (create_user_in_database default_config
                (commit_fails second_uuid 200)
                "u1" "a@c.org" "B" "http://x/q.png" one_user_db)) =
    [stored_user].
Proof.
  split; [reflexivity|].
  exact (failed_call_changes_no_row default_config
           (commit_fails second_uuid 200) "u1" "a@c.org" "B" "http://x/q.png"
           one_user_db _ eq_refl).
Defined.

(** X5.  What the reconciler raises.  Either [UnboundLocalError] for
    [conn], when connecting failed; or [HTTPException] 500 whose detail is
    "Error creating user: " and the driver's error, when the first of
    cursor, statement and commit to fail did so and the rollback went
    through; or the rollback's own error, when the rollback failed. *)
Theorem reconciler_failure_kinds (cfg : Config) (env : Env)
    (cid e n p : string) (st : Db) (err : exn) :
  fst (create_user_in_database cfg env cid e n p st) = inr err ->
  (err = UnboundLocalError "conn" /\ connect_error env <> None) \/
  (exists msg,
     err = HTTPException 500
             (Fmt "Error creating user: " (DatabaseError msg)) /\
     connect_error env = None /\ rollback_error env = None /\
     (cursor_error env = Some msg \/
      (cursor_error env = None /\ execute_error env = Some msg) \/
      (cursor_error env = None /\ execute_error env = None /\
       commit_error env = Some msg))) \/
  (exists msg,
     err = DatabaseError msg /\
     connect_error env = None /\ rollback_error env = Some msg).
Proof.
  by_faults env; intros H; try discriminate H; inversion H; subst; clear H;
    first
      [ left; split; [reflexivity|discriminate]
      | right; left; eexists; split; [reflexivity|]; split; [reflexivity|];
        split; [reflexivity|];
        solve [ left; reflexivity
              | right; left; split; reflexivity
              | right; right; repeat split; reflexivity ]
      | right; right; eexists; repeat split; reflexivity ].
Qed.

Lemma reconciler_failure_kinds_witness :
  fst (create_user_in_database default_config (rollback_fails first_uuid 100)
         "u1" "a@b.com" "A" "http://x/p.jpg" empty_db) =
    inr (DatabaseError "connection already closed") /\
  rollback_error (rollback_fails first_uuid 100) =
    Some "connection already closed".
Proof.
  split; [reflexivity|].
  destruct (reconciler_failure_kinds default_config
              (rollback_fails first_uuid 100)
              "u1" "a@b.com" "A" "http://x/p.jpg" empty_db _ eq_refl)
    as [[Habs _]|[[msg [Habs _]]|[msg [Herr [_ Hrb]]]]];
    try discriminate Habs.
  injection Herr as <-. exact Hrb.
Defined.

(** X6.  The reconciler and its connection.  With handles handed out in
    order, a call that returns, or that raises anything but a bare driver
    error, has closed the connection it opened; a call that raises a bare
    driver error raised it from [conn.rollback()] in the [except] block,
    and has left its connection open. *)
Theorem reconciler_connection_balance (cfg : Config) (env : Env)
    (cid e n p : string) (st : Db) :
  handles_below_next st ->
  let out := create_user_in_database cfg env cid e n p st in
  ((forall msg, fst out <> inr (DatabaseError msg)) ->
   open_conns (snd out) = open_conns st) /\
  (forall msg,
     fst out = inr (DatabaseError msg) ->
     rollback_error env = Some msg /\
     open_conns (snd out) = next_conn st :: open_conns st).
Proof.
  intros Hfresh.
  assert (remove Nat.eq_dec (next_conn st) (next_conn st :: open_conns st) =
          open_conns st) as Hrm by (apply remove_fresh; exact Hfresh).
  simpl in Hrm.
  by_faults env; (split; [intros Hno|intros msg Hmsg]);
    try discriminate Hmsg; try reflexivity; try exact Hrm;
    try (exfalso; eapply Hno; reflexivity);
    inversion Hmsg; subst; split; reflexivity.
Qed.

Lemma reconciler_connection_balance_witness :
  handles_below_next empty_db /\
  open_conns
    (snd (create_user_in_database default_config (calm first_uuid 100)
            "u1" "a@b.com" "A" "http://x/p.jpg" empty_db)) = [] /\
  open_conns
    (snd (create_user_in_database default_config
            (rollback_fails first_uuid 100)
            "u1" "a@b.com" "A" "http://x/p.jpg" empty_db)) = [0%nat].
Proof.
  assert (handles_below_next empty_db) as Hfresh by (intros c []).
  split; [exact Hfresh|]. split.
  - apply (proj1 (reconciler_connection_balance default_config
                    (calm first_uuid 100) "u1" "a@b.com" "A"
                    "http://x/p.jpg" empty_db Hfresh)).
    intros msg. discriminate.
  - exact (proj2 (proj2 (reconciler_connection_balance default_config
                    (rollback_fails first_uuid 100) "u1" "a@b.com" "A"
                    "http://x/p.jpg" empty_db Hfresh)
                    "connection already closed" eq_refl)).
Defined.

(** ** Calls in sequence *)

Lemma create_user_goes_through (cfg : Config) (env : Env)
    (cid e n p : string) (st : Db) :
  goes_through env ->
  fst (create_user_in_database cfg env cid e n p st) = inl (uuid4 env) /\
  users (snd (create_user_in_database cfg env cid e n p st)) =
    upsert (values_row cfg env cid e n p) (users st).
Proof.
  intros [Hc [Hcu [Hex Hco]]].
  destruct env as [c cu ex co rb u now ad]; simpl in *. subst c cu ex co.
  split; reflexivity.
Qed.

Lemma update_nothing (new : Row) (table : list Row) :
  existsb (conflicts new) table = false ->
  map (fun old => if conflicts new old then do_update new old else old)
    table = table.
Proof.
  induction table as [|r table IH]; simpl; intros Hex; [reflexivity|].
  apply orb_false_iff in Hex. destruct Hex as [Hr Hrest].
  now rewrite Hr, IH.
Qed.

Lemma existsb_pointwise {A} (f g : A -> bool) (l : list A) :
  (forall x, f x = g x) -> existsb f l = existsb g l.
Proof.
  intros Hfg. induction l as [|x l IH]; simpl; [reflexivity|].
  now rewrite Hfg, IH.
Qed.

Lemma existsb_conflicts_same_user (a b : Row) (table : list Row) :
  cognito_user_id a = cognito_user_id b ->
  existsb (conflicts b) table = existsb (conflicts a) table.
Proof.
  intros Hk. apply existsb_pointwise. intros r. unfold conflicts.
  now rewrite Hk.
Qed.

Lemma existsb_conflicts_updated (a b : Row) (table : list Row) :
  existsb (conflicts b)
    (map (fun old => if conflicts a old then do_update a old else old) table)
  = existsb (conflicts b) table.
Proof.
  induction table as [|r table IH]; simpl; [reflexivity|].
  rewrite IH. f_equal. now destruct (conflicts a r).
Qed.

(** The statement run twice for one user is the statement run once with
    the first row's kept columns and the second row's updated ones. *)
Lemma upsert_same_user_twice (a b : Row) (table : list Row) :
  cognito_user_id a = cognito_user_id b ->
  upsert b (upsert a table) = upsert (do_update b a) table.
Proof.
  intros Hk.
  assert (forall r, conflicts b r = conflicts a r) as Hba
    by (intros r; unfold conflicts; now rewrite Hk).
  assert (forall r, conflicts (do_update b a) r = conflicts a r) as Hua
    by reflexivity.
  unfold upsert at 2 3. rewrite (existsb_pointwise _ _ table Hua).
  destruct (existsb (conflicts a) table) eqn:Hex.
  - unfold upsert. rewrite existsb_conflicts_updated.
    rewrite (existsb_conflicts_same_user a b table Hk), Hex.
    rewrite map_map. apply map_ext. intros r. rewrite Hua.
    destruct (conflicts a r) eqn:Hc.
    + unfold conflicts at 1. simpl. fold (conflicts b r).
      rewrite Hba, Hc. reflexivity.
    + now rewrite Hba, Hc.
  - unfold upsert. rewrite existsb_app. simpl.
    assert (conflicts b a = true) as Hself
      by (apply conflicts_iff; exact Hk).
    rewrite Hself, orb_true_l, orb_true_r. rewrite map_app. simpl.
    rewrite Hself. f_equal. apply update_nothing.
    now rewrite (existsb_conflicts_same_user a b table Hk).
Qed.

(** X7.  Two calls for one user that both reach their [return] leave the
    table as a single statement would that carried the first call's
    identifier and creation time, and the second call's email, name,
    picture and update time. *)
Theorem two_calls_one_user (cfg : Config) (env1 env2 : Env)
    (cid e1 n1 p1 e2 n2 p2 : string) (st : Db) :
  goes_through env1 -> goes_through env2 ->
  users
    (snd (create_user_in_database cfg env2 cid e2 n2 p2
            (snd (create_user_in_database cfg env1 cid e1 n1 p1 st)))) =
  upsert {| id := uuid4 env1;
            cognito_user_id := cid;
            email := e2;
            name := n2;
            picture_url := p2;
            provider := DEFAULT_PROVIDER cfg;
            created_at := utcnow env1;
            updated_at := utcnow env2;
            is_active := true;
            onboarding_completed := false;
            preferences := "{}" |} (users st).
Proof.
  intros H1 H2.
  rewrite (proj2 (create_user_goes_through cfg env2 cid e2 n2 p2 _ H2)).
  rewrite (proj2 (create_user_goes_through cfg env1 cid e1 n1 p1 st H1)).
  now rewrite upsert_same_user_twice.
Qed.

Lemma two_calls_one_user_witness :
  goes_through (calm first_uuid 100) /\
  goes_through (calm second_uuid 200) /\
  users
    (snd (create_user_in_database default_config (calm second_uuid 200)
            "u1" "a@c.org" "B" "http://x/q.png"
            (snd (create_user_in_database default_config
                    (calm first_uuid 100)
                    "u1" "a@b.com" "A" "http://x/p.jpg" empty_db)))) =
  [{| id := first_uuid;
      cognito_user_id := "u1";
      email := "a@c.org";
      name := "B";
      picture_url := "http://x/q.png";
      provider := "google";
      created_at := 100;
      updated_at := 200;
      is_active := true;
      onboarding_completed := false;
      preferences := "{}" |}].
Proof.
  assert (forall u t, goes_through (calm u t)) as Hcalm
    by (intros u t; repeat split).
  split; [apply Hcalm|]. split; [apply Hcalm|].
  exact (two_calls_one_user default_config (calm first_uuid 100)
           (calm second_uuid 200) "u1" "a@b.com" "A" "http://x/p.jpg"
           "a@c.org" "B" "http://x/q.png" empty_db
           (Hcalm _ _) (Hcalm _ _)).
Defined.

Lemma existsb_conflicts_upsert_other (a b : Row) (table : list Row) :
  cognito_user_id a <> cognito_user_id b ->
  existsb (conflicts a) (upsert b table) = existsb (conflicts a) table.
Proof.
  intros Hne. unfold upsert. destruct (existsb (conflicts b) table).
  - apply existsb_conflicts_updated.
  - rewrite existsb_app. simpl.
    assert (conflicts a b = false) as ->.
    { unfold conflicts. apply String.eqb_neq. congruence. }
    now rewrite !orb_false_r.
Qed.

Lemma updates_commute (a b : Row) (table : list Row) :
  cognito_user_id a <> cognito_user_id b ->
  map (fun old => if conflicts a old then do_update a old else old)
    (map (fun old => if conflicts b old then do_update b old else old) table)
  =
  map (fun old => if conflicts b old then do_update b old else old)
    (map (fun old => if conflicts a old then do_update a old else old) table).
Proof.
  intros Hne. rewrite !map_map. apply map_ext. intros r.
  assert (forall x y, conflicts x (do_update y r) = conflicts x r) as Hkept
    by reflexivity.
  destruct (conflicts a r) eqn:Ha, (conflicts b r) eqn:Hb;
    rewrite ?Hkept, ?Ha, ?Hb; try reflexivity.
  apply conflicts_iff in Ha, Hb. congruence.
Qed.

Lemma upsert_other_users_commute (a b : Row) (table : list Row) :
  cognito_user_id a <> cognito_user_id b ->
  Permutation (upsert a (upsert b table)) (upsert b (upsert a table)).
Proof.
  intros Hne.
  assert (cognito_user_id b <> cognito_user_id a) as Hne' by congruence.
  assert (conflicts a b = false) as Hab
    by (unfold conflicts; apply String.eqb_neq; congruence).
  assert (conflicts b a = false) as Hba
    by (unfold conflicts; apply String.eqb_neq; congruence).
  unfold upsert at 1 3.
  rewrite (existsb_conflicts_upsert_other a b table Hne).
  rewrite (existsb_conflicts_upsert_other b a table Hne').
  unfold upsert.
  destruct (existsb (conflicts a) table) eqn:Ha,
           (existsb (conflicts b) table) eqn:Hb.
  - rewrite updates_commute by assumption. apply Permutation_refl.
  - rewrite map_app. simpl. rewrite Hab. apply Permutation_refl.
  - rewrite map_app. simpl. rewrite Hba. apply Permutation_refl.
  - rewrite <- !app_assoc. apply Permutation_app_head. simpl.
    apply perm_swap.
Qed.

(** X8.  Two calls for different users that both reach their [return]
    leave the same rows in whichever order they run. *)
Theorem calls_for_two_users_commute (cfg : Config) (env1 env2 : Env)
    (cid1 e1 n1 p1 cid2 e2 n2 p2 : string) (st : Db) :
  cid1 <> cid2 ->
  goes_through env1 -> goes_through env2 ->
  Permutation
    (users
       (snd (create_user_in_database cfg env2 cid2 e2 n2 p2
               (snd (create_user_in_database cfg env1 cid1 e1 n1 p1 st)))))
    (users
       (snd (create_user_in_database cfg env1 cid1 e1 n1 p1
               (snd (create_user_in_database cfg env2 cid2 e2 n2 p2 st))))).
Proof.
  intros Hne H1 H2.
  rewrite (proj2 (create_user_goes_through cfg env2 cid2 e2 n2 p2 _ H2)).
  rewrite (proj2 (create_user_goes_through cfg env1 cid1 e1 n1 p1 st H1)).
  rewrite (proj2 (create_user_goes_through cfg env1 cid1 e1 n1 p1 _ H1)).
  rewrite (proj2 (create_user_goes_through cfg env2 cid2 e2 n2 p2 st H2)).
  apply upsert_other_users_commute. simpl. congruence.
Qed.

Lemma calls_for_two_users_commute_witness :
  "u2" <> "u1" /\
  Permutation
    (users
       (snd (create_user_in_database default_config (calm first_uuid 100)
               "u1" "a@c.org" "B" "http://x/q.png"
               (snd (create_user_in_database default_config
                       (calm second_uuid 200)
                       "u2" "c@d.org" "C" "http://x/c.png" one_user_db)))))
    (users
       (snd (create_user_in_database default_config (calm second_uuid 200)
               "u2" "c@d.org" "C" "http://x/c.png"
               (snd (create_user_in_database default_config
                       (calm first_uuid 100)
                       "u1" "a@c.org" "B" "http://x/q.png" one_user_db))))).
Proof.
  assert ("u2" <> "u1") as Hne by discriminate.
  split; [exact Hne|].
  apply (calls_for_two_users_commute default_config (calm second_uuid 200)
           (calm first_uuid 100) "u2" "c@d.org" "C" "http://x/c.png"
           "u1" "a@c.org" "B" "http://x/q.png" one_user_db Hne);
    repeat split.
Defined.

(** ** The webhook, case by case *)

Lemma webhook_carried_strings (cfg : Config) (env : Env)
    (items : list (string * JSON)) (cid e n p : string) (st : Db) :
  carries cfg items (JString cid) (JString e) (JString n) (JString p) ->
  cid <> EmptyString -> e <> EmptyString ->
  let rc := create_user_in_database cfg env cid e n p st in
  let out := cognito_post_confirmation cfg env (Json (JObject items)) st in
  snd out = snd rc /\
  fst out =
    match fst rc with
    | inl user_id =>
        inl {| statusCode := 200;
               body := BodyUser "User created successfully" user_id
                         (JString e) |}
    | inr err => inr (HTTPException 500 (Fmt "Internal server error: " err))
    end.
Proof.
  intros Hcar Hcid He rc out. subst rc out.
  pose proof (webhook_after_reconciler cfg env cid e n p (JString e) st)
    as Hafter. simpl in Hafter.
  unfold cognito_post_confirmation.
  unfold try_except in *.
  rewrite (cognito_try_carries cfg env items _ _ _ _ st Hcar).
  unfold truthy.
  apply String.eqb_neq in Hcid, He. rewrite Hcid, He. simpl.
  exact Hafter.
Qed.

(** X9.  An accepted event whose [request], and [userAttributes] under it,
    are dicts or absent, and whose email or [userName] is absent or falsy
    (empty string, null, zero, false, empty list or dict) is turned away
    before any driver call: the database is as before.  The 400 raised for
    it is caught by the webhook's own catch-all clause, so the answer is 500
    with the 400 formatted in the detail. *)
Theorem webhook_missing_data (cfg : Config) (env : Env)
    (items : list (string * JSON)) (cid e n p : JSON) (st : Db) :
  carries cfg items cid e n p ->
  truthy e = false \/ truthy cid = false ->
  cognito_post_confirmation cfg env (Json (JObject items)) st =
  (inr (HTTPException 500
          (Fmt "Internal server error: "
             (HTTPException 400 (Lit "Missing required user data")))), st).
Proof.
  intros Hcar Hfalsy. unfold cognito_post_confirmation, try_except.
  rewrite (cognito_try_carries cfg env items cid e n p st Hcar).
  assert (negb (truthy e) || negb (truthy cid) = true) as ->.
  { destruct Hfalsy as [-> | ->]; simpl; [reflexivity|apply orb_true_r]. }
  reflexivity.
Qed.

Lemma webhook_missing_data_witness :
  carries default_config null_email_items
    (JString "u1") JNull (JString "A") (JString EmptyString) /\
  cognito_post_confirmation default_config (calm first_uuid 100)
    (Json (JObject null_email_items)) one_user_db =
  (inr (HTTPException 500
          (Fmt "Internal server error: "
             (HTTPException 400 (Lit "Missing required user data")))),
   one_user_db).
Proof.
  assert (carries default_config null_email_items
            (JString "u1") JNull (JString "A") (JString EmptyString))
    as Hcar.
  { split; [reflexivity|]. split; [reflexivity|].
    eexists. eexists. repeat split; reflexivity. }
  split; [exact Hcar|].
  apply (webhook_missing_data default_config (calm first_uuid 100)
           null_email_items _ _ _ _ one_user_db Hcar).
  left. reflexivity.
Defined.

(** X10.  An accepted event with a non-empty string email and [userName]
    is handed to the reconciler with the four strings it carries.  The
    database after the webhook is the database after the reconciler; the
    answer is 200 with the identifier the reconciler returned and the
    email, or 500 with the exception the reconciler raised formatted after
    "Internal server error: ". *)
Theorem webhook_delegates_to_reconciler (cfg : Config) (env : Env)
    (items : list (string * JSON)) (cid e n p : string) (st : Db) :
  carries cfg items (JString cid) (JString e) (JString n) (JString p) ->
  cid <> EmptyString -> e <> EmptyString ->
  let rc := create_user_in_database cfg env cid e n p st in
  let out := cognito_post_confirmation cfg env (Json (JObject items)) st in
  snd out = snd rc /\
  fst out =
    match fst rc with
    | inl user_id =>
        inl {| statusCode := 200;
               body := BodyUser "User created successfully" user_id
                         (JString e) |}
    | inr err => inr (HTTPException 500 (Fmt "Internal server error: " err))
    end.
Proof.
  intros Hcar Hcid He.
  exact (webhook_carried_strings cfg env items cid e n p st Hcar Hcid He).
Qed.

Lemma webhook_delegates_to_reconciler_witness :
  carries default_config signup_items
    (JString "u1") (JString "a@b.com") (JString "A")
    (JString "http://x/p.jpg") /\
  fst (cognito_post_confirmation default_config
         (statement_fails first_uuid 100) (Json (JObject signup_items))
         empty_db) =
  inr (HTTPException 500
         (Fmt "Internal server error: "
            (HTTPException 500
               (Fmt "Error creating user: "
                  (DatabaseError
                     "server closed the connection unexpectedly"))))).
Proof.
  assert (carries default_config signup_items
            (JString "u1") (JString "a@b.com") (JString "A")
            (JString "http://x/p.jpg")) as Hcar.
  { split; [reflexivity|]. split; [reflexivity|].
    eexists. eexists. repeat split; reflexivity. }
  split; [exact Hcar|].
  assert ("u1" <> EmptyString) as H1 by discriminate.
  assert ("a@b.com" <> EmptyString) as H2 by discriminate.
  exact (proj2 (webhook_delegates_to_reconciler default_config
                  (statement_fails first_uuid 100) signup_items
                  "u1" "a@b.com" "A" "http://x/p.jpg" empty_db
                  Hcar H1 H2)).
Defined.

(** X11.  An accepted event whose [request], or whose [userAttributes]
    under it, is present and not a dict is answered 500: [get] on it raises
    [AttributeError], which the catch-all clause formats.  No driver call is
    made. *)
Theorem webhook_wrong_shape (cfg : Config) (env : Env)
    (items : list (string * JSON)) (st : Db) :
  dict_get items "triggerSource" JNull = JString (TRIGGER_SOURCE cfg) ->
  (forall v,
     dict_get items "request" (JObject []) = v ->
     (forall request_items, v <> JObject request_items) ->
     cognito_post_confirmation cfg env (Json (JObject items)) st =
     (inr (HTTPException 500
             (Fmt "Internal server error: "
                (AttributeError (type_name v) "get"))), st)) /\
  (forall request_items v,
     dict_get items "request" (JObject []) = JObject request_items ->
     dict_get request_items "userAttributes" (JObject []) = v ->
     (forall attributes, v <> JObject attributes) ->
     cognito_post_confirmation cfg env (Json (JObject items)) st =
     (inr (HTTPException 500
             (Fmt "Internal server error: "
                (AttributeError (type_name v) "get"))), st)).
Proof.
  intros Ht. split.
  - intros v Hr Hv. unfold cognito_post_confirmation, try_except.
    rewrite cognito_try_object. unfold cognito_try_on.
    rewrite Ht, Hr, ne_str_same.
    destruct v; try reflexivity. exfalso. now apply (Hv items0).
  - intros ritems v Hr Ha Hv. unfold cognito_post_confirmation, try_except.
    rewrite cognito_try_object. unfold cognito_try_on.
    rewrite Ht, Hr, ne_str_same. simpl. unfold bind at 1. simpl. rewrite Ha.
    destruct v; try reflexivity. exfalso. now apply (Hv items0).
Qed.

Lemma webhook_wrong_shape_witness :
  dict_get list_request_items "triggerSource" JNull =
    JString (TRIGGER_SOURCE default_config) /\
  dict_get list_request_items "request" (JObject []) = JArray [] /\
  cognito_post_confirmation default_config (calm first_uuid 100)
    (Json (JObject list_request_items)) empty_db =
  (inr (HTTPException 500
          (Fmt "Internal server error: " (AttributeError "list" "get"))),
   empty_db).
Proof.
  split; [reflexivity|]. split; [reflexivity|].
  apply (proj1 (webhook_wrong_shape default_config (calm first_uuid 100)
                  list_request_items empty_db eq_refl) (JArray []) eq_refl).
  intros request_items. discriminate.
Defined.

Lemma cognito_try_json (cfg : Config) (env : Env) (v : JSON) (st : Db) :
  match fst (cognito_try cfg env (Json v) st) with
  | inl reply => statusCode reply = 200
  | inr e => is_JSONDecodeError e = false
  end.
Proof.
  destruct v as [| | | | | |items]; try reflexivity.
  rewrite cognito_try_object. unfold cognito_try_on.
  destruct (ne_str _ _); [reflexivity|].
  destruct (dict_get items "request" (JObject [])) as [| | | | | |ritems];
    try reflexivity.
  simpl. unfold bind at 1. simpl.
  destruct (dict_get ritems "userAttributes" (JObject []))
    as [| | | | | |attrs]; try reflexivity.
  simpl. unfold bind at 1 2 3. simpl.
  destruct (negb _ || negb _); [reflexivity|].
  unfold bind.
  match goal with
  | |- context [create_user_in_database cfg env ?c ?e ?n ?p st] =>
      pose proof (create_user_not_json_error cfg env c e n p st) as Hkind;
      destruct (create_user_in_database cfg env c e n p st)
        as [[uid|err] st']
  end; simpl in *; [reflexivity|].
  now apply Hkind.
Qed.

(** X12.  The answers of the webhook.  Every request ends in one of
    three ways.  The handler returns a dict whose [statusCode] is 200, only
    for a body that loaded; FastAPI answers it 200, or a plain 500 when the
    email it echoes holds an infinity or a NaN and the dict cannot be
    rendered.  Or it raises 400 "Invalid JSON", exactly when [json.loads]
    raised [JSONDecodeError], with the database untouched.  Or it raises
    500 "Internal server error: " with the exception caught, which
    includes the [UnicodeDecodeError], [ValueError] and [RecursionError] of
    decoding.  No other exception leaves the function, and the status is
    400 for no other body. *)
Theorem webhook_answers (cfg : Config) (env : Env) (request_body : Body)
    (st : Db) :
  let out := cognito_post_confirmation cfg env request_body st in
  ((exists reply,
      fst out = inl reply /\ statusCode reply = 200 /\
      (exists v, request_body = Json v) /\
      http_status (fst out) =
        match body reply with
        | BodyText _ => 200
        | BodyUser _ _ email => if json_compliant email then 200 else 500
        end) \/
   (fst out = inr (HTTPException 400 (Lit "Invalid JSON")) /\
    snd out = st /\ exists msg, request_body = NotJson msg) \/
   (exists e,
      fst out = inr (HTTPException 500 (Fmt "Internal server error: " e)) /\
      forall msg, request_body <> NotJson msg)) /\
  (http_status (fst out) = 400 <-> exists msg, request_body = NotJson msg).
Proof.
  destruct request_body as [msg|msg|v msg|v msg|v]; simpl.
  - split.
    + right. right. eexists. split; [reflexivity|]. discriminate.
    + split; [discriminate|]. intros [m Hm]. discriminate.
  - split.
    + right. left. repeat split. now exists msg.
    + split; [intros _; now exists msg|reflexivity].
  - split.
    + right. right. eexists. split; [reflexivity|]. discriminate.
    + split; [discriminate|]. intros [m Hm]. discriminate.
  - split.
    + right. right. eexists. split; [reflexivity|]. discriminate.
    + split; [discriminate|]. intros [m Hm]. discriminate.
  - pose proof (cognito_try_json cfg env v st) as Hres.
    unfold cognito_post_confirmation, try_except.
    destruct (cognito_try cfg env (Json v) st) as [[reply|e] st'];
      simpl in *.
    + split.
      * left. exists reply. split; [reflexivity|]. split; [exact Hres|].
        split; [now exists v|]. unfold serialises, Reply_serialisable.
        destruct (body reply); reflexivity.
      * split; [|intros [m Hm]; discriminate].
        unfold serialises, Reply_serialisable.
        destruct (body reply) as [t|m u email];
          [discriminate|destruct (json_compliant email); discriminate].
    + rewrite Hres. simpl. split.
      * right. right. exists e. split; [reflexivity|]. discriminate.
      * split; [discriminate|]. intros [m Hm]. discriminate.
Qed.

(** An echoed email that cannot be rendered: the row is committed and the
    answer is 500. *)
Example webhook_infinite_email :
  let out :=
    cognito_post_confirmation default_config (calm first_uuid 100)
      (Json (JObject infinite_email_items)) empty_db in
  fst out =
    inl {| statusCode := 200;
           body := BodyUser "User created successfully" first_uuid
                     (JFloat (S754_infinity false)) |} /\
  http_status (fst out) = 500 /\
  map id (users (snd out)) = [first_uuid].
Proof. repeat split. Qed.

(** ** The health check and the test endpoint *)

Lemma health_check_rows (env : Env) (st : Db) :
  users (snd (health_check env st)) = users st.
Proof. by_faults env; reflexivity. Qed.

Lemma health_check_returns (env : Env) (st : Db) :
  exists reply, fst (health_check env st) = inl reply.
Proof. by_faults env; eexists; reflexivity. Qed.

Lemma test_webhook_outcome (cfg : Config) (tcfg : TestConfig) (env : Env)
    (st : Db) :
  let rc :=
    create_user_in_database cfg env "test-user-123" "test@example.com"
      "Test User" "https://example.com/pic.jpg" st in
  let out := test_webhook cfg tcfg env st in
  snd out = snd rc /\
  fst out =
    match fst rc with
    | inl user_id =>
        inl {| test_message := "Test webhook executed successfully";
               test_user_id := user_id;
               test_data := test_event cfg tcfg |}
    | inr err => inr (HTTPException 500 (Fmt "Test failed: " err))
    end.
Proof.
  intros rc out. subst out rc. unfold test_webhook, try_except, bind. simpl.
  destruct (create_user_in_database cfg env _ _ _ _ st) as [[uid|err] st'];
    split; reflexivity.
Qed.

(** X13.  The health check writes nothing: whatever the outside does, the
    committed rows after it are the rows before it, and the statements among
    its driver calls are those that were there before and [SELECT 1]. *)
Theorem health_check_changes_no_row (env : Env) (st : Db) :
  users (snd (health_check env st)) = users st /\
  (forall q,
     In (CallExecute q) (calls (snd (health_check env st))) ->
     q = Select1 \/ In (CallExecute q) (calls st)).
Proof.
  by_faults env; (split; [reflexivity|]); intros q Hin;
    repeat (destruct Hin as [Heq|Hin];
            [ try discriminate Heq; injection Heq as <-; now left | ]);
    now right.
Qed.

(** X14.  The health check and its connection.  With handles handed out in
    order, a health check that could not connect, or whose cursor and
    statement both went through, leaves open exactly the connections that
    were open before. *)
Theorem health_check_connection_balance (env : Env) (st : Db) :
  handles_below_next st ->
  connect_error env <> None \/
  (cursor_error env = None /\ execute_error env = None) ->
  open_conns (snd (health_check env st)) = open_conns st.
Proof.
  intros Hfresh.
  assert (remove Nat.eq_dec (next_conn st) (next_conn st :: open_conns st) =
          open_conns st) as Hrm by (apply remove_fresh; exact Hfresh).
  simpl in Hrm.
  by_faults env; intros [Hc|[Hcu Hex]];
    try discriminate; try congruence; try reflexivity; exact Hrm.
Qed.

Lemma health_check_connection_balance_witness :
  handles_below_next one_user_db /\
  open_conns (snd (health_check (calm first_uuid 100) one_user_db)) = [] /\
  open_conns (snd (health_check (server_down first_uuid 100) one_user_db))
    = [].
Proof.
  assert (handles_below_next one_user_db) as Hfresh by (intros c []).
  split; [exact Hfresh|]. split.
  - apply (health_check_connection_balance (calm first_uuid 100)
             one_user_db Hfresh).
    right. split; reflexivity.
  - apply (health_check_connection_balance (server_down first_uuid 100)
             one_user_db Hfresh).
    left. discriminate.
Defined.

Lemma test_event_carries (cfg : Config) (tcfg : TestConfig) :
  exists items,
    test_event cfg tcfg = JObject items /\
    carries cfg items (JString "test-user-123") (JString "test@example.com")
      (JString "Test User") (JString "https://example.com/pic.jpg").
Proof.
  eexists. split; [reflexivity|].
  split; [reflexivity|]. split; [reflexivity|].
  eexists. eexists. repeat split; reflexivity.
Qed.

(** X15.  The test endpoint calls the reconciler for the user
    "test-user-123" with the sample's email, name and picture.  It answers
    with the identifier the reconciler returned and the sample event, or
    with 500 and the reconciler's exception formatted after "Test failed: ".
    It leaves the database as the webhook does when it is sent the sample
    event, and the two answer with the same status. *)
Theorem test_webhook_runs_sample (cfg : Config) (tcfg : TestConfig)
    (env : Env) (st : Db) :
  let rc :=
    create_user_in_database cfg env "test-user-123" "test@example.com"
      "Test User" "https://example.com/pic.jpg" st in
  let out := test_webhook cfg tcfg env st in
  let posted :=
    cognito_post_confirmation cfg env (Json (test_event cfg tcfg)) st in
  snd out = snd rc /\
  fst out =
    match fst rc with
    | inl user_id =>
        inl {| test_message := "Test webhook executed successfully";
               test_user_id := user_id;
               test_data := test_event cfg tcfg |}
    | inr err => inr (HTTPException 500 (Fmt "Test failed: " err))
    end /\
  snd posted = snd out /\
  http_status (fst posted) = http_status (fst out).
Proof.
  intros rc out posted.
  destruct (test_webhook_outcome cfg tcfg env st) as [Hst Hres].
  fold rc out in Hst, Hres.
  split; [exact Hst|]. split; [exact Hres|].
  destruct (test_event_carries cfg tcfg) as [items [Hitems Hcar]].
  assert ("test-user-123" <> EmptyString) as H1 by discriminate.
  assert ("test@example.com" <> EmptyString) as H2 by discriminate.
  pose proof (webhook_carried_strings cfg env items _ _ _ _ st
                Hcar H1 H2) as [Hpst Hpres].
  subst posted. rewrite Hitems. fold rc in Hpst, Hpres.
  split; [congruence|].
  rewrite Hpres, Hres. now destruct (fst rc).
Qed.

(** ** The application over any sequence of requests *)

Lemma create_user_rows_step (cfg : Config) (env : Env) (cid e n p : string)
    (st : Db) :
  rows_step (users st)
    (users (snd (create_user_in_database cfg env cid e n p st))).
Proof.
  destruct (create_user_outcome cfg env cid e n p st)
    as [[_ Hrows]|[err [_ Hrows]]]; rewrite Hrows.
  - right. eexists. reflexivity.
  - now left.
Qed.

Lemma cognito_try_state (cfg : Config) (env : Env) (request_body : Body)
    (st : Db) :
  snd (cognito_try cfg env request_body st) = st \/
  exists cid e n p,
    snd (cognito_try cfg env request_body st) =
    snd (create_user_in_database cfg env cid e n p st).
Proof.
  destruct request_body as [msg|msg|v msg|v msg|v]; try (now left).
  destruct v as [| | | | | |items]; try (now left).
  rewrite cognito_try_object. unfold cognito_try_on.
  destruct (ne_str _ _); [now left|].
  destruct (dict_get items "request" (JObject [])) as [| | | | | |ritems];
    try (now left).
  simpl. unfold bind at 1. simpl.
  destruct (dict_get ritems "userAttributes" (JObject []))
    as [| | | | | |attrs]; try (now left).
  cbv beta iota zeta delta [bind ret get].
  set (e := dict_get attrs "email" (JString EmptyString)).
  set (cid := dict_get items "userName" (JString EmptyString)).
  destruct (negb (truthy e) || negb (truthy cid)); [now left|].
  right.
  exists (bound_text env cid), (bound_text env e),
    (bound_text env (dict_get attrs "name" (JString EmptyString))),
    (bound_text env (dict_get attrs "picture" (JString EmptyString))).
  destruct (create_user_in_database cfg env _ _ _ _ st) as [[uid|err] st'];
    reflexivity.
Qed.

Lemma webhook_rows_step (cfg : Config) (env : Env) (request_body : Body)
    (st : Db) :
  rows_step (users st)
    (users (snd (cognito_post_confirmation cfg env request_body st))).
Proof.
  assert (snd (cognito_post_confirmation cfg env request_body st) =
          snd (cognito_try cfg env request_body st)) as ->.
  { unfold cognito_post_confirmation, try_except.
    destruct (cognito_try cfg env request_body st) as [[reply|e] st'];
      [reflexivity|]. now destruct (is_JSONDecodeError e). }
  destruct (cognito_try_state cfg env request_body st)
    as [->|[cid [e [n [p ->]]]]].
  - now left.
  - apply create_user_rows_step.
Qed.

Lemma serve_rows_step (cfg : Config) (tcfg : TestConfig) (env : Env)
    (req : Request) (st : Db) :
  rows_step (users st) (users (snd (serve cfg tcfg env req st))).
Proof.
  destruct req as [| |request_body|]; simpl.
  - now left.
  - left. apply health_check_rows.
  - apply webhook_rows_step.
  - rewrite (proj1 (test_webhook_outcome cfg tcfg env st)).
    apply create_user_rows_step.
Qed.

Lemma upsert_kept_columns (new : Row) (table : list Row) :
  map kept_columns (upsert new table) =
  (map kept_columns table ++
   if existsb (conflicts new) table then [] else [kept_columns new])%list.
Proof.
  unfold upsert. destruct (existsb (conflicts new) table).
  - rewrite app_nil_r, map_map. apply map_ext. intros old.
    now destruct (conflicts new old).
  - now rewrite map_app.
Qed.

(** X16.  Whatever requests arrive, on whatever route and with whatever
    faults, a table that meets the uniqueness constraint on
    [cognito_user_id] meets it afterwards: no sequence of requests gives a
    user two rows. *)
Theorem app_keeps_one_row_per_user (cfg : Config) (tcfg : TestConfig)
    (reqs : list (Env * Request)) (st : Db) :
  unique_cognito_user_id (users st) ->
  unique_cognito_user_id (users (serve_all cfg tcfg reqs st)).
Proof.
  revert st. induction reqs as [|[env req] rest IH]; simpl; intros st Hnd.
  - exact Hnd.
  - apply IH.
    destruct (serve_rows_step cfg tcfg env req st) as [->|[new ->]].
    + exact Hnd.
    + now apply upsert_unique.
Qed.

Lemma app_keeps_one_row_per_user_witness :
  unique_cognito_user_id (users one_user_db) /\
  unique_cognito_user_id
    (users (serve_all default_config default_test_config
              [(calm second_uuid 200, PostCognitoWebhook signup_event);
               (statement_fails first_uuid 300, GetHealth);
               (calm second_uuid 400, PostTestWebhook)]
              one_user_db)).
Proof.
  assert (unique_cognito_user_id (users one_user_db)) as Hnd.
  { constructor; [intros []|constructor]. }
  split; [exact Hnd|].
  exact (app_keeps_one_row_per_user default_config default_test_config
           _ one_user_db Hnd).
Defined.

(** X17.  No sequence of requests deletes a row or changes, in a row that
    is stored, [id], [cognito_user_id], [provider], [created_at],
    [is_active], [onboarding_completed] or [preferences]: these columns of
    the table afterwards are those of the table before, in the same order,
    followed by those of the rows added. *)
Theorem app_keeps_stored_columns (cfg : Config) (tcfg : TestConfig)
    (reqs : list (Env * Request)) (st : Db) :
  exists added,
    map kept_columns (users (serve_all cfg tcfg reqs st)) =
    (map kept_columns (users st) ++ added)%list.
Proof.
  revert st. induction reqs as [|[env req] rest IH]; simpl; intros st.
  - exists []. now rewrite app_nil_r.
  - destruct (IH (snd (serve cfg tcfg env req st))) as [added Hadded].
    rewrite Hadded.
    destruct (serve_rows_step cfg tcfg env req st) as [->|[new ->]].
    + now exists added.
    + rewrite upsert_kept_columns, <- app_assoc. eexists. reflexivity.
Qed.

(** X18.  The statuses of the application.  [GET /] and [GET /health] are
    always answered 200, and [GET /] leaves the database alone; the test
    endpoint is answered 200 or 500; the webhook 200, 400 or 500, and 400
    only when the body is text that [json.loads] rejected with
    [JSONDecodeError]. *)
Theorem app_statuses (cfg : Config) (tcfg : TestConfig) (env : Env)
    (req : Request) (st : Db) :
  let status := fst (serve cfg tcfg env req st) in
  (status = 200 \/ status = 400 \/ status = 500) /\
  (req = GetRoot -> status = 200 /\ snd (serve cfg tcfg env req st) = st) /\
  (req = GetHealth -> status = 200) /\
  (status = 400 -> exists msg, req = PostCognitoWebhook (NotJson msg)).
Proof.
  destruct req as [| |request_body|]; simpl.
  - repeat split; try discriminate. now left.
  - destruct (health_check_returns env st) as [reply ->]. simpl.
    repeat split; try discriminate. now left.
  - destruct request_body as [msg|msg|v msg|v msg|v].
    + simpl. repeat split; try discriminate. auto.
    + simpl. repeat split; try discriminate; auto.
      intros _. now exists msg.
    + simpl. repeat split; try discriminate. auto.
    + simpl. repeat split; try discriminate. auto.
    + pose proof (cognito_try_json cfg env v st) as Hres.
      unfold cognito_post_confirmation, try_except.
      destruct (cognito_try cfg env (Json v) st) as [[reply|e] st'];
        simpl in *.
      * destruct (serialises reply);
          repeat split; try discriminate; auto.
      * rewrite Hres. simpl. repeat split; try discriminate. auto.
  - rewrite (proj2 (test_webhook_outcome cfg tcfg env st)).
    destruct (fst (create_user_in_database _ _ _ _ _ _ _)); simpl;
      repeat split; try discriminate; auto.
Qed.
